(** * Query understanding core of the financial assistant (nlp_processor.py)

    A shallow embedding of [src/nlp_processor.py]: the term extractor
    ([extract_financial_terms]), the text normaliser ([preprocess_text]),
    the intent classifier ([identify_query_type]) and the query analyser
    ([analyze_query]), followed by the properties of the specification.

    Modelling conventions.
    - A Python [str] is a Rocq [string]; the text-processing functions work
      on its characters ([list ascii]).  The model covers ASCII text: the
      character classes of [re] and [str] are the ASCII ones.
    - A Python [dict] is an association list in insertion order
      ([dict V]), because the classifier takes the first key of one.
    - A Python [float] is a real number ([R]); the similarity scores of
      scikit-learn are modelled in exact arithmetic.
    - The module-level flag [SKLEARN_AVAILABLE] together with the imported
      library is an optional [SimilarityEngine]; an exception raised by the
      vectoriser is the result [None] of [fit_transform]. *)

From Stdlib Require Import List String Ascii Bool Arith Lia Reals Lra Psatz.
From Stdlib Require Import ZArith DecimalString.
Import ListNotations.

Set Implicit Arguments.

(** ** Characters and text *)

Module Text.

Definition text := list ascii.

Definition of_string (s : string) : text := list_ascii_of_string s.
Definition to_string (t : text) : string := string_of_list_ascii t.

Definition code (c : ascii) : nat := nat_of_ascii c.

Definition between (lo hi n : nat) : bool := (lo <=? n) && (n <=? hi).

Definition is_digit (c : ascii) : bool := between 48 57 (code c).
Definition is_upper (c : ascii) : bool := between 65 90 (code c).
Definition is_lower (c : ascii) : bool := between 97 122 (code c).

(** [\w] of the [re] module. *)
Definition is_word_char (c : ascii) : bool :=
  is_digit c || is_upper c || is_lower c || (code c =? 95).

(** Whitespace of [str.split()]: tab, line feed, vertical tab, form feed,
    carriage return, the four separators 28..31 and the space. *)
Definition is_space (c : ascii) : bool :=
  between 9 13 (code c) || between 28 31 (code c) || (code c =? 32).

Definition lower_char (c : ascii) : ascii :=
  if is_upper c then ascii_of_nat (code c + 32) else c.

(** [str.lower()] *)
Definition lower (t : text) : text := map lower_char t.

Fixpoint text_eqb (a b : text) : bool :=
  match a, b with
  | [], [] => true
  | x :: a', y :: b' => Ascii.eqb x y && text_eqb a' b'
  | _, _ => false
  end.

(** [b.startswith(a)] *)
Fixpoint is_prefix (a b : text) : bool :=
  match a, b with
  | [], _ => true
  | x :: a', y :: b' => Ascii.eqb x y && is_prefix a' b'
  | _ :: _, [] => false
  end.

(** [a in b] on strings: [a] occurs as a substring of [b]. *)
Fixpoint contains (a b : text) : bool :=
  is_prefix a b ||
  match b with
  | [] => false
  | _ :: b' => contains a b'
  end.

End Text.

Import Text.

(** ** The two regular expressions of the module *)

Module Regex.

(** Whether the character before the current position is a word character
    ([None] at the start of the text). *)
Definition word_before (prev : option ascii) : bool :=
  match prev with
  | Some c => is_word_char c
  | None => false
  end.

(** Whether the character at the current position is a word character
    (false at the end of the text). *)
Definition word_at (s : text) : bool :=
  match s with
  | c :: _ => is_word_char c
  | [] => false
  end.

(** [\b]: exactly one side of the position is a word character. *)
Definition boundary (prev : option ascii) (s : text) : bool :=
  xorb (word_before prev) (word_at s).

(** Matching the escaped literal [term] at the current position: the last
    character consumed and the rest of the text. *)
Fixpoint literal (term s : text) (prev : option ascii)
  : option (option ascii * text) :=
  match term with
  | [] => Some (prev, s)
  | t :: term' =>
      match s with
      | c :: s' => if Ascii.eqb t c then literal term' s' (Some c) else None
      | [] => None
      end
  end.

(** [\b term \b] anchored at the current position. *)
Definition match_word_here (term : text) (prev : option ascii) (s : text) : bool :=
  boundary prev s &&
  match literal term s prev with
  | Some (prev', rest) => boundary prev' rest
  | None => false
  end.

(** [re.search(r'\b' + re.escape(term) + r'\b', text)] is not [None]:
    the anchored match is tried at every position from the left. *)
Fixpoint search_from (term : text) (prev : option ascii) (s : text) : bool :=
  match_word_here term prev s ||
  match s with
  | [] => false
  | c :: s' => search_from term (Some c) s'
  end.

Definition search_word (term txt : text) : bool := search_from term None txt.

(** [\b(20\d{2})\b] anchored at the current position: the year matched. *)
Definition match_year_here (prev : option ascii) (s : text) : option text :=
  match s with
  | c1 :: c2 :: c3 :: c4 :: rest =>
      if boundary prev s
         && Ascii.eqb c1 "2" && Ascii.eqb c2 "0"
         && is_digit c3 && is_digit c4
         && boundary (Some c4) rest
      then Some [c1; c2; c3; c4]
      else None
  | _ => None
  end.

(** [re.findall(r'\b(20\d{2})\b', query)]: scan from the left; after a
    match the scan resumes behind it ([skip] counts the characters of the
    last match that are still to be passed over). *)
Fixpoint findall_years_from (skip : nat) (prev : option ascii) (s : text)
  : list text :=
  match s with
  | [] => []
  | c :: s' =>
      match skip with
      | S k => findall_years_from k (Some c) s'
      | O =>
          match match_year_here prev s with
          | Some y => y :: findall_years_from 3 (Some c) s'
          | None => findall_years_from 0 (Some c) s'
          end
      end
  end.

Definition findall_years (txt : text) : list text :=
  findall_years_from 0 None txt.

End Regex.

(** ** Dictionaries in insertion order *)

Module Dict.

Definition dict (V : Type) := list (string * V).

Section Ops.
Variable V : Type.

(** [k in d] *)
Fixpoint mem (k : string) (d : dict V) : bool :=
  match d with
  | [] => false
  | (k', _) :: d' => String.eqb k k' || mem k d'
  end.

(** [d.get(k)] *)
Fixpoint get (k : string) (d : dict V) : option V :=
  match d with
  | [] => None
  | (k', v) :: d' => if String.eqb k k' then Some v else get k d'
  end.

(** [d[k] = v]: an existing key keeps its place, a new key goes last. *)
Fixpoint set (k : string) (v : V) (d : dict V) : dict V :=
  match d with
  | [] => [(k, v)]
  | (k', v') :: d' =>
      if String.eqb k k' then (k', v) :: d' else (k', v') :: set k v d'
  end.

(** In-place update of the value stored under [k]. *)
Fixpoint update (k : string) (f : V -> V) (d : dict V) : dict V :=
  match d with
  | [] => []
  | (k', v') :: d' =>
      if String.eqb k k' then (k', f v') :: d' else (k', v') :: update k f d'
  end.

Definition keys (d : dict V) : list string := map fst d.

(** [next(iter(d))] when [d] is not empty. *)
Definition first_key (d : dict V) : option string :=
  match d with
  | [] => None
  | (k, _) :: _ => Some k
  end.

End Ops.

End Dict.

Import Dict.

(** ** Static configuration *)

Open Scope string_scope.
Open Scope list_scope.

(** Financial domain terms to recognize in queries. *)
Definition FINANCIAL_TERMS : dict (list string) :=
  [ ("revenue", ["revenue"; "sales"; "income"; "earnings"; "money"; "earn"; "top line"; "turnover"]);
    ("net_income", ["net income"; "profit"; "earnings"; "bottom line"; "net earnings"; "income"]);
    ("assets", ["assets"; "property"; "holdings"; "possessions"; "resources"]);
    ("liabilities", ["liabilities"; "debt"; "obligations"; "payables"]);
    ("cash_flow", ["cash flow"; "cash"; "liquidity"; "funds flow"; "operating cash"]);
    ("growth", ["growth"; "increase"; "rise"; "improvement"; "expansion"]);
    ("performance", ["performance"; "results"; "achievements"; "accomplishments"; "records"]);
    ("comparison", ["compare"; "comparison"; "versus"; "vs"; "against"; "relative to"]);
    ("trend", ["trend"; "pattern"; "direction"; "movement"; "trajectory"; "history"]);
    ("forecast", ["forecast"; "predict"; "projection"; "outlook"; "future"; "expectation"]) ].

(** Query templates for classification. *)
Definition QUERY_TEMPLATES : dict (list string) :=
  [ ("revenue_query",
      [ "What is the revenue of {company}?";
        "Show me {company}'s revenue";
        "Tell me about {company}'s revenue";
        "What's the total revenue for {company}?";
        "How much revenue did {company} generate?";
        "What are the earnings of {company}?" ]);
    ("net_income_query",
      [ "What is the net income of {company}?";
        "How has {company}'s net income changed?";
        "Tell me about {company}'s profit";
        "What's the profit for {company}?";
        "How much did {company} earn?";
        "What is {company}'s bottom line?" ]);
    ("assets_liabilities_query",
      [ "What are the assets and liabilities of {company}?";
        "Tell me about {company}'s assets";
        "What is the debt of {company}?";
        "Show me {company}'s financial position";
        "What's the balance sheet of {company}?";
        "How much does {company} own and owe?" ]);
    ("cash_flow_query",
      [ "How has the cash flow of {company} changed?";
        "Tell me about {company}'s cash flow";
        "What is the operating cash flow of {company}?";
        "Show me {company}'s cash situation";
        "What's the cash position for {company}?";
        "How much cash is {company} generating from operations?" ]);
    ("growth_query",
      [ "What is the revenue growth of {company}?";
        "How fast is {company} growing?";
        "Tell me about {company}'s growth";
        "What's the growth rate for {company}?";
        "Is {company} growing year over year?";
        "How has {company}'s size changed over time?" ]);
    ("performance_query",
      [ "How is {company} performing?";
        "Tell me about {company}'s performance";
        "What's the overall financial performance of {company}?";
        "How did {company} do financially?";
        "Give me an overview of {company}'s results";
        "What are {company}'s key financial metrics?" ]);
    ("comparison_query",
      [ "Compare {company} with other companies";
        "How does {company} compare to its peers?";
        "Is {company} performing better than others?";
        "Show me a comparison of {company} with its competitors";
        "What's the relative performance of {company}?";
        "Is {company} outperforming or underperforming?" ]);
    ("trend_query",
      [ "What is the trend in {company}'s revenue?";
        "Show me the trend in {company}'s performance";
        "Has {company}'s profit been increasing or decreasing?";
        "What pattern do you see in {company}'s financials?";
        "Is there a consistent trend in {company}'s metrics?";
        "How have {company}'s financials evolved over time?" ]);
    ("forecast_query",
      [ "What's the forecast for {company}?";
        "Predict {company}'s future performance";
        "What can we expect from {company} in the future?";
        "Show me projections for {company}";
        "What's the outlook for {company}?";
        "How might {company} perform going forward?" ]) ].

(** The nine query types: the keys of [QUERY_TEMPLATES]. *)
Definition INTENTS : list string := keys QUERY_TEMPLATES.

(** ** Term extractor *)

(** One pass of the inner loop body: the term is appended to the list of
    its category, which is created empty on the first hit. *)
Definition record_term (category term : string) (d : dict (list string))
  : dict (list string) :=
  let d1 := if mem category d then d else set category [] d in
  update category (fun l => l ++ [term]) d1.

Definition term_matches (txt : text) (term : string) : bool :=
  Regex.search_word (of_string term) txt.

Definition scan_terms (txt : text) (category : string) (terms : list string)
    (d : dict (list string)) : dict (list string) :=
  fold_left
    (fun d term => if term_matches txt term then record_term category term d else d)
    terms d.

Definition extract_terms_with (config : dict (list string)) (txt : text)
  : dict (list string) :=
  fold_left (fun d entry => scan_terms txt (fst entry) (snd entry) d) config [].

(** [extract_financial_terms(text)] *)
Definition extract_financial_terms (s : string) : dict (list string) :=
  extract_terms_with FINANCIAL_TERMS (lower (of_string s)).


(** ** Text normaliser *)

(** [text.split()]: the maximal runs of non-whitespace characters. *)
Fixpoint split_from (cur : text) (s : text) : list text :=
  match s with
  | [] => match cur with [] => [] | _ => [cur] end
  | c :: s' =>
      if is_space c
      then match cur with [] => split_from [] s' | _ => cur :: split_from [] s' end
      else split_from (cur ++ [c]) s'
  end.

Definition split (s : text) : list text := split_from [] s.

(** The characters of [word.strip('.,;:!?()[]{}...')]: the punctuation
    marks, the double quote (code 34, twice in the source) and the
    apostrophe. *)
Definition STRIP_CHARS : text :=
  of_string ".,;:!?()[]{}" ++ [ascii_of_nat 34; ascii_of_nat 34; ascii_of_nat 39].

Definition in_chars (chars : text) (c : ascii) : bool :=
  existsb (Ascii.eqb c) chars.

Fixpoint drop_while (p : ascii -> bool) (s : text) : text :=
  match s with
  | [] => []
  | c :: s' => if p c then drop_while p s' else s
  end.

(** [word.strip(chars)] *)
Definition strip (chars : text) (word : text) : text :=
  rev (drop_while (in_chars chars) (rev (drop_while (in_chars chars) word))).

Definition STOP_WORDS : list string :=
  [ "i"; "me"; "my"; "myself"; "we"; "our"; "ours"; "ourselves"; "you"; "your"; "yours";
    "yourself"; "yourselves"; "he"; "him"; "his"; "himself"; "she"; "her"; "hers";
    "herself"; "it"; "its"; "itself"; "they"; "them"; "their"; "theirs"; "themselves";
    "what"; "which"; "who"; "whom"; "this"; "that"; "these"; "those"; "am"; "is"; "are";
    "was"; "were"; "be"; "been"; "being"; "have"; "has"; "had"; "having"; "do"; "does";
    "did"; "doing"; "a"; "an"; "the"; "and"; "but"; "if"; "or"; "because"; "as"; "until";
    "while"; "of"; "at"; "by"; "for"; "with"; "about"; "against"; "between"; "into";
    "through"; "during"; "before"; "after"; "above"; "below"; "to"; "from"; "up"; "down";
    "in"; "out"; "on"; "off"; "over"; "under"; "again"; "further"; "then"; "once"; "here";
    "there"; "when"; "where"; "why"; "how"; "all"; "any"; "both"; "each"; "few"; "more";
    "most"; "other"; "some"; "such"; "no"; "nor"; "not"; "only"; "own"; "same"; "so";
    "than"; "too"; "very"; "s"; "t"; "can"; "will"; "just"; "don"; "should"; "now" ].

Definition is_stop_word (w : text) : bool :=
  existsb (fun sw => text_eqb w (of_string sw)) STOP_WORDS.

(** [sep.join(words)] *)
Fixpoint join (sep : text) (words : list text) : text :=
  match words with
  | [] => []
  | [w] => w
  | w :: ws => w ++ sep ++ join sep ws
  end.

Definition clean_tokens (words : list text) : list text :=
  filter (fun w => match w with [] => false | _ => true end)
         (map (strip STRIP_CHARS) words).

(** [preprocess_text(text)] *)
Definition preprocess_text (s : string) : string :=
  let txt := lower (of_string s) in
  let tokens := clean_tokens (split txt) in
  let filtered_tokens :=
    filter (fun w => negb (is_stop_word w) && Nat.ltb 1 (List.length w)) tokens in
  to_string (join (of_string " ") filtered_tokens).

(** ** Template formatting *)

Definition PLACEHOLDER : text := of_string "{company}".

(** [template.format(company=company)] on templates whose only replacement
    field is the placeholder: every occurrence is replaced, [skip] counts
    the characters of the placeholder still to be passed over. *)
Fixpoint format_from (skip : nat) (company : text) (s : text) : text :=
  match s with
  | [] => []
  | c :: s' =>
      match skip with
      | S k => format_from k company s'
      | O =>
          if is_prefix PLACEHOLDER s
          then company ++ format_from 8 company s'
          else c :: format_from 0 company s'
      end
  end.

Definition format (template company : string) : string :=
  to_string (format_from 0 (of_string company) (of_string template)).


(** ** Similarity engine *)

Open Scope R_scope.

(** What the classifier uses of scikit-learn: [fit_transform] builds the
    TF-IDF matrix of the texts ([None] when it raises), and
    [cosine_similarity m i] is
    [cosine_similarity(tfidf_matrix[0:1], tfidf_matrix[i:i+1])[0][0]],
    which does not raise on two rows of a matrix it was given. *)
Record SimilarityEngine : Type := {
  matrix : Type;
  fit_transform : list string -> option matrix;
  cosine_similarity : matrix -> nat -> R
}.

(** ** Intent classifier *)

Record QueryInfo : Type := {
  info_query_type : option string;
  info_confidence : R;
  info_financial_terms : dict (list string)
}.

(** [any(word in query_lower for word in words)] *)
Definition any_in (words : list string) (query_lower : text) : bool :=
  existsb (fun word => contains (of_string word) query_lower) words.

(** The state of the scoring loop: [best_match] and [highest_score]. *)
Definition best := (option string * R)%type.

(** The inner loop over the templates of one query type. *)
Definition score_templates (e : SimilarityEngine) (m : matrix e)
    (query_type : string) (n : nat) (st : best) : best :=
  fold_left
    (fun (st : best) i =>
       let similarity := cosine_similarity e m i in
       if Rgt_dec similarity (snd st) then (Some query_type, similarity) else st)
    (seq 1 n) st.

(** One iteration of the outer loop: the body of the [try], skipped as a
    whole when the vectoriser raises. *)
Definition score_query_type (e : SimilarityEngine) (preprocessed_query : string)
    (st : best) (entry : string * list string) : best :=
  let all_texts := preprocessed_query :: snd entry in
  match fit_transform e all_texts with
  | Some tfidf_matrix =>
      score_templates e tfidf_matrix (fst entry) (List.length all_texts - 1) st
  | None => st
  end.

Definition score_all (e : SimilarityEngine) (preprocessed_query : string)
    (formatted_templates : dict (list string)) (st : best) : best :=
  fold_left (score_query_type e preprocessed_query) formatted_templates st.

Definition format_templates (company : string) : dict (list string) :=
  map (fun entry =>
         (fst entry, map (fun template => preprocess_text (format template company))
                         (snd entry)))
      QUERY_TEMPLATES.

(** The keyword rules of the path without scikit-learn, in their order. *)
Definition keyword_match (query_lower : text) : option string :=
  if any_in ["revenue"; "sales"; "earn"] query_lower then Some "revenue_query"
  else if any_in ["profit"; "income"; "earnings"] query_lower then Some "net_income_query"
  else if any_in ["asset"; "debt"; "liability"] query_lower then Some "assets_liabilities_query"
  else if any_in ["cash"; "flow"; "liquidity"] query_lower then Some "cash_flow_query"
  else if any_in ["growth"; "growing"; "increase"] query_lower then Some "growth_query"
  else if any_in ["performance"; "overview"; "summary"] query_lower then Some "performance_query"
  else if any_in ["compare"; "comparison"; "versus"; "vs"] query_lower then Some "comparison_query"
  else if any_in ["trend"; "pattern"; "historical"] query_lower then Some "trend_query"
  else if any_in ["forecast"; "future"; "predict"; "projection"] query_lower then Some "forecast_query"
  else None.

(** [identify_query_type(query, company)]; [engine] is [None] when
    [SKLEARN_AVAILABLE] is false. *)
Definition identify_query_type (engine : option SimilarityEngine)
    (query company : string) : QueryInfo :=
  let preprocessed_query := preprocess_text query in
  let financial_terms := extract_financial_terms query in
  let term_based_match := first_key financial_terms in
  let result : best :=
    match engine with
    | None =>
        let best_match := term_based_match in
        let confidence := match best_match with Some _ => 0.5 | None => 0.3 end in
        match best_match with
        | Some _ => (best_match, confidence)
        | None =>
            let query_lower := lower (of_string query) in
            match keyword_match query_lower with
            | Some query_type => (Some query_type, confidence)
            | None => (Some "performance_query", 0.2)
            end
        end
    | Some e =>
        let formatted_templates := format_templates company in
        let scored := score_all e preprocessed_query formatted_templates (None, -1) in
        let highest_score := snd scored in
        let best_match :=
          match fst scored with
          | None => term_based_match
          | Some query_type => Some query_type
          end in
        let confidence := if Rgt_dec highest_score 0 then highest_score else 0.3 in
        (best_match, confidence)
    end in
  let result : best :=
    match fst result with
    | None => (Some "performance_query", 0.2)
    | Some _ => result
    end in
  {| info_query_type := fst result;
     info_confidence := snd result;
     info_financial_terms := financial_terms |}.

(** ** Query analyser *)

Record QueryAnalysis : Type := {
  query_type : option string;
  confidence : R;
  is_comparison : bool;
  is_trend : bool;
  is_forecast : bool;
  time_periods : list string;
  metrics : list string;
  financial_terms : dict (list string)
}.

(** [if key in financial_terms: metrics.append(key)] *)
Definition append_if_present (key : string) (terms : dict (list string))
    (metrics : list string) : list string :=
  if mem key terms then metrics ++ [key] else metrics.

(** [analyze_query(query, company)] *)
Definition analyze_query (engine : option SimilarityEngine)
    (query company : string) : QueryAnalysis :=
  let query_info := identify_query_type engine query company in
  let terms := info_financial_terms query_info in
  let years := map to_string (Regex.findall_years (of_string query)) in
  let time_periods := match years with [] => [] | _ => years end in
  let metrics := [] in
  let metrics := append_if_present "revenue" terms metrics in
  let metrics := append_if_present "net_income" terms metrics in
  let metrics := append_if_present "assets" terms metrics in
  let metrics := append_if_present "liabilities" terms metrics in
  let metrics := append_if_present "cash_flow" terms metrics in
  {| query_type := info_query_type query_info;
     confidence := info_confidence query_info;
     is_comparison := mem "comparison" terms;
     is_trend := mem "trend" terms;
     is_forecast := mem "forecast" terms;
     time_periods := time_periods;
     metrics := match metrics with [] => ["all"%string] | _ => metrics end;
     financial_terms := terms |}.


(** ** scikit-learn's TF-IDF and cosine similarity, in exact arithmetic

    [TfidfVectorizer()] with its default parameters (lower-casing, tokens
    of two or more word characters, raw term counts, smoothed inverse
    document frequency, rows scaled to unit Euclidean length) and
    [cosine_similarity].  The columns are in order of first occurrence
    (scikit-learn sorts them; the scores do not depend on their order). *)

Module Sklearn.

Definition emit (cur : text) : list text :=
  if Nat.leb 2 (List.length cur) then [cur] else [].

(** The token pattern: maximal runs of word characters, of length two or
    more. *)
Fixpoint word_runs (cur : text) (s : text) : list text :=
  match s with
  | [] => emit cur
  | c :: s' =>
      if is_word_char c then word_runs (cur ++ [c]) s'
      else emit cur ++ word_runs [] s'
  end.

Definition tokens (doc : string) : list string :=
  map to_string (word_runs [] (lower (of_string doc))).

Definition vocabulary (docs : list string) : list string :=
  nodup string_dec (List.concat (map tokens docs)).

(** Term count of [t] in a document. *)
Definition tf (t : string) (doc : string) : nat :=
  count_occ string_dec (tokens doc) t.

(** Number of documents that contain [t]. *)
Definition df (docs : list string) (t : string) : nat :=
  List.length (filter (fun doc => Nat.ltb 0 (tf t doc)) docs).

(** [ln((1 + n) / (1 + df)) + 1] *)
Definition idf (docs : list string) (t : string) : R :=
  ln ((1 + INR (List.length docs)) / (1 + INR (df docs t))) + 1.

Definition row := list R.

Definition tfidf_row (docs voc : list string) (doc : string) : row :=
  map (fun t => INR (tf t doc) * idf docs t) voc.

Fixpoint dot (x y : row) : R :=
  match x, y with
  | a :: x', b :: y' => a * b + dot x' y'
  | _, _ => 0
  end.

Definition norm (x : row) : R := sqrt (dot x x).

(** [normalize]: a row of norm zero is divided by one. *)
Definition normalize (x : row) : row :=
  let n := norm x in
  let scale := if Req_dec_T n 0 then 1 else n in
  map (fun a => a / scale) x.

(** [fit_transform] raises on an empty vocabulary. *)
Definition tfidf_fit_transform (docs : list string) : option (list row) :=
  match vocabulary docs with
  | [] => None
  | voc => Some (map (fun doc => normalize (tfidf_row docs voc doc)) docs)
  end.

Definition tfidf_cosine_similarity (m : list row) (i : nat) : R :=
  dot (normalize (nth 0 m [])) (normalize (nth i m [])).

Definition engine : SimilarityEngine :=
  {| matrix := list row;
     fit_transform := tfidf_fit_transform;
     cosine_similarity := tfidf_cosine_similarity |}.

End Sklearn.

(** ** Stub engines

    The classifier only sees an engine through [fit_transform] and
    [cosine_similarity]; these two stand for a vectoriser that always
    raises and for one that scores every template alike. *)

Definition failing_engine : SimilarityEngine :=
  {| matrix := unit;
     fit_transform := fun _ => None;
     cosine_similarity := fun _ _ => 0 |}.

Definition constant_engine (score : R) : SimilarityEngine :=
  {| matrix := unit;
     fit_transform := fun _ => Some tt;
     cosine_similarity := fun _ _ => score |}.

(** ** Notions used to state the properties *)

Module Spec.

(** [phrase] occurs in [txt] as a whole word (a whole phrase): the
    character before the occurrence, if any, and the character after it,
    if any, are not word characters. *)
Definition whole_word_occurrence (phrase txt : text) : Prop :=
  exists pre post,
    txt = pre ++ phrase ++ post /\
    Regex.word_at (rev pre) = false /\
    Regex.word_at post = false.

(** Four characters: a two, a zero and two digits. *)
Definition is_year (y : text) : bool :=
  match y with
  | [c1; c2; c3; c4] =>
      Ascii.eqb c1 "2" && Ascii.eqb c2 "0" && is_digit c3 && is_digit c4
  | _ => false
  end.

(** The year that stands at position [i] of [txt] between word
    boundaries, if there is one. *)
Definition bounded_year_at (txt : text) (i : nat) : list text :=
  let y := firstn 4 (skipn i txt) in
  if is_year y
     && negb (Regex.word_at (rev (firstn i txt)))
     && negb (Regex.word_at (skipn (i + 4) txt))
  then [y] else [].

(** All of them, from left to right. *)
Definition bounded_years (txt : text) : list text :=
  flat_map (bounded_year_at txt) (seq 0 (List.length txt)).

(** The five metric keys, in the order [analyze_query] tests them. *)
Definition METRIC_KEYS : list string :=
  ["revenue"; "net_income"; "assets"; "liabilities"; "cash_flow"]%string.

(** The scored (query type, template) pairs in the order the classifier
    visits them; a query type whose vectorisation raises contributes
    none. *)
Definition scored_pairs (e : SimilarityEngine) (preprocessed_query : string)
    (formatted_templates : dict (list string)) : list (string * R) :=
  flat_map
    (fun entry =>
       match fit_transform e (preprocessed_query :: snd entry) with
       | Some m =>
           map (fun i => (fst entry, cosine_similarity e m i))
               (seq 1 (List.length (snd entry)))
       | None => []
       end)
    formatted_templates.

(** The comparison of the scoring loop on one pair. *)
Definition pick (st : best) (p : string * R) : best :=
  if Rgt_dec (snd p) (snd st) then (Some (fst p), snd p) else st.

(** Every score the engine returns is at most one. *)
Definition scores_at_most_one (engine : option SimilarityEngine) : Prop :=
  match engine with
  | None => True
  | Some e =>
      forall docs m i, fit_transform e docs = Some m -> cosine_similarity e m i <= 1
  end.


(** The character before the position reached after reading [pre]. *)
Definition last_char (prev : option ascii) (pre : text) : option ascii :=
  match rev pre with
  | [] => prev
  | c :: _ => Some c
  end.

(** The synonyms of a configured category that the text matches, in the
    configured order. *)
Definition matched_entry (txt : text) (entry : string * list string)
  : string * list string :=
  (fst entry, filter (term_matches txt) (snd entry)).

Definition has_terms (entry : string * list string) : bool :=
  match snd entry with
  | [] => false
  | _ :: _ => true
  end.

(** A phrase that begins and ends with a word character. *)
Definition word_phrase (phrase : text) : bool :=
  Regex.word_at phrase && Regex.word_at (rev phrase).

(** The years matched by the anchored pattern at each position of the
    text, without passing over anything. *)
Fixpoint years_everywhere (prev : option ascii) (s : text) : list text :=
  match s with
  | [] => []
  | c :: s' =>
      match Regex.match_year_here prev s with
      | Some y => [y]
      | None => []
      end ++ years_everywhere (Some c) s'
  end.

End Spec.

Import Spec.

(** ** Further notions for the normaliser, the templates and the engine *)

(** The tokens [preprocess_text] keeps: the words of the lower-cased text,
    stripped, without the empty ones, the stop words and the
    single-character ones. *)
Definition kept_tokens (s : string) : list text :=
  filter (fun w => negb (is_stop_word w) && Nat.ltb 1 (List.length w))
         (clean_tokens (split (lower (of_string s)))).

(** A text without whitespace, and a non-empty one. *)
Definition no_space (w : text) : Prop := Forall (fun c => is_space c = false) w.

Definition word (w : text) : Prop := w <> [] /\ no_space w.

(** A text that does not begin with a character satisfying [p]. *)
Definition starts_clean (p : ascii -> bool) (l : text) : Prop :=
  match l with
  | [] => True
  | c :: _ => p c = false
  end.

(** What every kept token satisfies. *)
Definition kept (w : text) : Prop :=
  word w /\ Forall (fun c => lower_char c = c) w /\
  strip STRIP_CHARS w = w /\ is_stop_word w = false /\ (2 <= List.length w)%nat.

(** The number [normalize] divides a row by. *)
Definition scale (x : Sklearn.row) : R :=
  if Req_dec_T (Sklearn.norm x) 0 then 1 else Sklearn.norm x.

(** The parts of a template before and after its first placeholder. *)
Fixpoint split_placeholder (s : text) : option (text * text) :=
  match s with
  | [] => None
  | c :: s' =>
      if is_prefix PLACEHOLDER s then Some ([], skipn 9 s)
      else match split_placeholder s' with
           | Some (a, b) => Some (c :: a, b)
           | None => None
           end
  end.

(** No token of the normalised query occurs in a normalised template of
    the bank formatted for the company. *)
Definition no_shared_token (query company : string) : bool :=
  forallb
    (fun entry =>
       forallb
         (fun doc =>
            forallb
              (fun t => negb (existsb (String.eqb t) (Sklearn.tokens doc)))
              (Sklearn.tokens (preprocess_text query)))
         (snd entry))
    (format_templates company).

(** ** Response generator (financial_analysis.py)

    [generate_response] on the per-company records that [analyze_data]
    builds: the year-over-year entries are present together, when the
    previous fiscal year exists ([changes]), or absent together.  The
    float formats of the f-strings are parameters.  The text is the
    UTF-8 encoding of the Python string. *)

Module Response.

Local Open Scope string_scope.

Record Changes : Type := {
  revenue_change : R;
  revenue_pct : R;
  net_income_change : R;
  net_income_pct : R;
  cash_flow_change : R;
  cash_flow_pct : R;
  roa_change : R;
  profit_margin_change : R;
  debt_ratio_change : R
}.

Record CompanyData : Type := {
  latest_year : Z;
  total_revenue : R;
  net_income : R;
  total_assets : R;
  total_liabilities : R;
  cash_flow : R;
  roa : R;
  profit_margin : R;
  debt_ratio : R;
  changes : option Changes
}.

(** [str(n)] of an integer. *)
Definition str_int (z : Z) : string := NilEmpty.string_of_int (Z.to_int z).

(** The line feed and the bullet of the multi-line answers. *)
Definition NL : string := String (ascii_of_nat 10) "".
Definition BULLET : string :=
  String (ascii_of_nat 226) (String (ascii_of_nat 128) (String (ascii_of_nat 162) "")).

(** [query_type == name] *)
Definition is_type (query_type : option string) (name : string) : bool :=
  match query_type with
  | Some s => String.eqb s name
  | None => false
  end.

Definition sorry_message (company : string) : string :=
  "Sorry, I don't have information about " ++ company ++ ".".

Definition no_other_companies (company : string) : string :=
  "No other companies available to compare with " ++ company ++ ".".

Definition not_enough_information (company : string) : string :=
  "I don't have enough information to answer that query about " ++ company
  ++ ". Try asking about revenue, net income, assets, liabilities, cash flow, growth, or overall performance.".

Section Formatting.

(** [f"{x:,.0f}"], [f"{x:.1f}"] and [f"{x:.2f}"]. *)
Variable fmt_money : R -> string.
Variable fmt_1f : R -> string.
Variable fmt_2f : R -> string.

(** One loop of the comparison answer: a line per company of the
    dataset. *)
Definition comparison_lines (analysis_data : dict CompanyData)
    (line : string -> CompanyData -> string) (response : string) : string :=
  fold_left
    (fun response comp =>
       match get comp analysis_data with
       | Some comp_data => response ++ line comp comp_data
       | None => response
       end)
    (keys analysis_data) response.

Definition revenue_answer (company : string) (d : CompanyData) (is_trend : bool) : string :=
  if is_trend then
    match changes d with
    | Some ch =>
        let growth_text := if Rgt_dec (revenue_pct ch) 0 then "grew" else "declined" in
        company ++ "'s revenue " ++ growth_text ++ " by " ++ fmt_1f (Rabs (revenue_pct ch))
        ++ "% from " ++ str_int (latest_year d - 1) ++ " to " ++ str_int (latest_year d)
        ++ ", changing from $" ++ fmt_money (total_revenue d - revenue_change ch)
        ++ " million to $" ++ fmt_money (total_revenue d) ++ " million."
    | None =>
        company ++ "'s revenue for " ++ str_int (latest_year d) ++ " was $"
        ++ fmt_money (total_revenue d) ++ " million."
    end
  else
    company ++ "'s total revenue for " ++ str_int (latest_year d) ++ " was $"
    ++ fmt_money (total_revenue d) ++ " million.".

Definition net_income_answer (company : string) (d : CompanyData) (is_trend : bool) : string :=
  if is_trend then
    match changes d with
    | Some ch =>
        let change_direction :=
          if Rgt_dec (net_income_change ch) 0 then "increased" else "decreased" in
        company ++ "'s net income " ++ change_direction ++ " from $"
        ++ fmt_money (net_income d - net_income_change ch) ++ " million to $"
        ++ fmt_money (net_income d) ++ " million (a change of "
        ++ fmt_1f (net_income_pct ch) ++ "%) between "
        ++ str_int (latest_year d - 1) ++ " and " ++ str_int (latest_year d) ++ "."
    | None =>
        company ++ "'s net income for " ++ str_int (latest_year d) ++ " was $"
        ++ fmt_money (net_income d) ++ " million."
    end
  else
    company ++ "'s net income for " ++ str_int (latest_year d) ++ " was $"
    ++ fmt_money (net_income d) ++ " million.".

Definition assets_liabilities_answer (company : string) (d : CompanyData) : string :=
  company ++ "'s total assets for " ++ str_int (latest_year d) ++ " were $"
  ++ fmt_money (total_assets d) ++ " million, and total liabilities were $"
  ++ fmt_money (total_liabilities d) ++ " million. The debt-to-asset ratio is "
  ++ fmt_2f (debt_ratio d) ++ ".".

Definition cash_flow_answer (company : string) (d : CompanyData) (is_trend : bool) : string :=
  if is_trend then
    match changes d with
    | Some ch =>
        let change_direction :=
          if Rgt_dec (cash_flow_change ch) 0 then "increased" else "decreased" in
        company ++ "'s cash flow from operating activities " ++ change_direction
        ++ " from $" ++ fmt_money (cash_flow d - cash_flow_change ch) ++ " million to $"
        ++ fmt_money (cash_flow d) ++ " million (a change of "
        ++ fmt_1f (cash_flow_pct ch) ++ "%) between "
        ++ str_int (latest_year d - 1) ++ " and " ++ str_int (latest_year d) ++ "."
    | None =>
        company ++ "'s cash flow from operating activities for "
        ++ str_int (latest_year d) ++ " was $" ++ fmt_money (cash_flow d) ++ " million."
    end
  else
    company ++ "'s cash flow from operating activities for "
    ++ str_int (latest_year d) ++ " was $" ++ fmt_money (cash_flow d) ++ " million.".

Definition growth_answer (company : string) (d : CompanyData) : string :=
  let response := company ++ "'s growth metrics for " ++ str_int (latest_year d) ++ ":" ++ NL in
  match changes d with
  | Some ch =>
      let response :=
        response ++ BULLET ++ " Revenue Growth: " ++ fmt_1f (revenue_pct ch) ++ "%" ++ NL in
      let response :=
        response ++ BULLET ++ " Net Income Growth: " ++ fmt_1f (net_income_pct ch) ++ "%" ++ NL in
      response ++ BULLET ++ " Cash Flow Growth: " ++ fmt_1f (cash_flow_pct ch) ++ "%" ++ NL
  | None => response
  end.

Definition performance_answer (company : string) (d : CompanyData) : string :=
  let response :=
    company ++ "'s financial performance in " ++ str_int (latest_year d) ++ ":" ++ NL in
  let response :=
    response ++ BULLET ++ " Revenue: $" ++ fmt_money (total_revenue d) ++ " million" ++ NL in
  let response :=
    response ++ BULLET ++ " Net Income: $" ++ fmt_money (net_income d) ++ " million" ++ NL in
  let response :=
    response ++ BULLET ++ " Total Assets: $" ++ fmt_money (total_assets d) ++ " million" ++ NL in
  let response :=
    response ++ BULLET ++ " Total Liabilities: $" ++ fmt_money (total_liabilities d)
    ++ " million" ++ NL in
  let response :=
    response ++ BULLET ++ " Cash Flow from Operations: $" ++ fmt_money (cash_flow d)
    ++ " million" ++ NL in
  let response :=
    response ++ BULLET ++ " Return on Assets: " ++ fmt_1f (roa d) ++ "%" ++ NL in
  let response :=
    response ++ BULLET ++ " Profit Margin: " ++ fmt_1f (profit_margin d) ++ "%" ++ NL in
  response ++ BULLET ++ " Debt-to-Asset Ratio: " ++ fmt_2f (debt_ratio d) ++ NL.

Definition forecast_answer (company : string) (d : CompanyData) : string :=
  let response :=
    "Based on " ++ company
    ++ "'s historical data, a simple linear projection suggests:" ++ NL in
  match changes d with
  | Some ch =>
      let projected_revenue := (total_revenue d + revenue_change ch)%R in
      let response :=
        response ++ BULLET ++ " Projected Revenue for " ++ str_int (latest_year d + 1)
        ++ ": $" ++ fmt_money projected_revenue ++ " million" ++ NL in
      let projected_net_income := (net_income d + net_income_change ch)%R in
      let response :=
        response ++ BULLET ++ " Projected Net Income for " ++ str_int (latest_year d + 1)
        ++ ": $" ++ fmt_money projected_net_income ++ " million" ++ NL in
      response ++ NL
      ++ "Note: This is a simple linear projection based on year-over-year change and should not be considered a comprehensive forecast."
  | None =>
      response ++ "Insufficient historical data to generate a meaningful forecast."
  end.

Definition comparison_answer (company : string) (analysis_data : dict CompanyData) : string :=
  let response :=
    "Comparing " ++ company ++ " with other companies in the dataset:" ++ NL in
  let all_companies := keys analysis_data in
  if Nat.leb (List.length all_companies) 1 then no_other_companies company
  else
    let response := response ++ NL ++ "Revenue (latest year, in millions):" ++ NL in
    let response :=
      comparison_lines analysis_data
        (fun comp comp_data =>
           BULLET ++ " " ++ comp ++ ": $" ++ fmt_money (total_revenue comp_data) ++ NL)
        response in
    let response := response ++ NL ++ "Net Income (latest year, in millions):" ++ NL in
    let response :=
      comparison_lines analysis_data
        (fun comp comp_data =>
           BULLET ++ " " ++ comp ++ ": $" ++ fmt_money (net_income comp_data) ++ NL)
        response in
    let response := response ++ NL ++ "Profit Margin (latest year):" ++ NL in
    comparison_lines analysis_data
      (fun comp comp_data =>
         BULLET ++ " " ++ comp ++ ": " ++ fmt_1f (profit_margin comp_data) ++ "%" ++ NL)
      response.

(** [generate_response(query, analysis_data, company)] *)
Definition generate_response (engine : option SimilarityEngine) (query : string)
    (analysis_data : dict CompanyData) (company : string) : string :=
  let query_analysis := analyze_query engine query company in
  match get company analysis_data with
  | None => sorry_message company
  | Some company_data =>
      let qt := query_type query_analysis in
      if is_type qt "revenue_query" then
        revenue_answer company company_data (is_trend query_analysis)
      else if is_type qt "net_income_query" then
        net_income_answer company company_data (is_trend query_analysis)
      else if is_type qt "assets_liabilities_query" then
        assets_liabilities_answer company company_data
      else if is_type qt "cash_flow_query" then
        cash_flow_answer company company_data (is_trend query_analysis)
      else if is_type qt "growth_query" then
        growth_answer company company_data
      else if is_type qt "performance_query" then
        performance_answer company company_data
      else if is_forecast query_analysis then
        forecast_answer company company_data
      else if is_comparison query_analysis then
        comparison_answer company analysis_data
      else not_enough_information company
  end.

End Formatting.

End Response.

(** A record and a dataset of one company, for the instances below. *)
Definition ACME_2024 : Response.CompanyData :=
  {| Response.latest_year := 2024%Z; Response.total_revenue := 10;
     Response.net_income := 2; Response.total_assets := 20;
     Response.total_liabilities := 5; Response.cash_flow := 3;
     Response.roa := 10; Response.profit_margin := 20;
     Response.debt_ratio := 0.25; Response.changes := None |}.

Definition ACME_ONLY : dict Response.CompanyData := [("Acme"%string, ACME_2024)].

(** * Properties *)

(** ** Characters *)

Lemma lower_char_word (c : ascii) : is_word_char (lower_char c) = is_word_char c.
Proof. destruct c as [[] [] [] [] [] [] [] []]; vm_compute; reflexivity. Qed.

Lemma space_not_word (c : ascii) : is_space c = true -> is_word_char c = false.
Proof. destruct c as [[] [] [] [] [] [] [] []]; vm_compute; congruence. Qed.

Lemma lower_char_space (c : ascii) : is_space c = true -> lower_char c = c.
Proof. destruct c as [[] [] [] [] [] [] [] []]; vm_compute; congruence. Qed.

Lemma lower_char_idem (c : ascii) : lower_char (lower_char c) = lower_char c.
Proof. destruct c as [[] [] [] [] [] [] [] []]; vm_compute; reflexivity. Qed.

Lemma lower_app (a b : text) : lower (a ++ b) = lower a ++ lower b.
Proof. apply map_app. Qed.

Lemma lower_idem (a : text) : lower (lower a) = lower a.
Proof.
  unfold lower. rewrite map_map. apply map_ext. intro c. apply lower_char_idem.
Qed.

Lemma word_at_rev_lower (a : text) :
  Regex.word_at (rev (lower a)) = Regex.word_at (rev a).
Proof.
  unfold lower. rewrite <- map_rev. destruct (rev a) as [|c r]; simpl.
  - reflexivity.
  - apply lower_char_word.
Qed.

Lemma word_at_lower (a : text) : Regex.word_at (lower a) = Regex.word_at a.
Proof. destruct a as [|c a]; simpl; [reflexivity | apply lower_char_word]. Qed.

(** ** The word search against its declarative reading *)

Module RegexFacts.
Import Regex.

Lemma last_char_cons prev c pre : last_char prev (c :: pre) = last_char (Some c) pre.
Proof.
  unfold last_char. simpl. destruct (rev pre) as [|x r] eqn:E; simpl; reflexivity.
Qed.

Lemma word_before_last_char pre :
  word_before (last_char None pre) = word_at (rev pre).
Proof. unfold last_char. destruct (rev pre); reflexivity. Qed.

Lemma literal_sound term : forall s prev prev' rest,
  literal term s prev = Some (prev', rest) ->
  s = term ++ rest /\ prev' = last_char prev term.
Proof.
  induction term as [|t term IH]; intros s prev prev' rest H; simpl in H.
  - inversion H; subst. split; reflexivity.
  - destruct s as [|c s]; [discriminate|].
    destruct (Ascii.eqb t c) eqn:E; [|discriminate].
    apply Ascii.eqb_eq in E. subst c.
    apply IH in H. destruct H as [-> ->]. split; [reflexivity|].
    symmetry. apply last_char_cons.
Qed.

Lemma literal_complete term : forall rest prev,
  literal term (term ++ rest) prev = Some (last_char prev term, rest).
Proof.
  induction term as [|t term IH]; intros rest prev; simpl.
  - reflexivity.
  - rewrite Ascii.eqb_refl, IH, last_char_cons. reflexivity.
Qed.

Section WordTerm.
Variable term : text.
Hypothesis term_first : word_at term = true.
Hypothesis term_last : word_at (rev term) = true.

Lemma term_last_char prev : word_before (last_char prev term) = true.
Proof.
  unfold last_char. destruct (rev term) as [|c r]; simpl in *; [discriminate | exact term_last].
Qed.

Lemma word_at_term_app rest : word_at (term ++ rest) = true.
Proof. destruct term; simpl in *; [discriminate | exact term_first]. Qed.

Lemma match_word_here_spec prev s :
  match_word_here term prev s = true <->
  word_before prev = false /\ exists rest, s = term ++ rest /\ word_at rest = false.
Proof.
  unfold match_word_here, boundary. split.
  - intro H. apply andb_true_iff in H. destruct H as [Hb Hl].
    destruct (literal term s prev) as [[prev' rest]|] eqn:E; [|discriminate].
    apply literal_sound in E. destruct E as [-> ->].
    rewrite word_at_term_app in Hb. rewrite term_last_char in Hl.
    split.
    + destruct (word_before prev); [discriminate | reflexivity].
    + exists rest. split; [reflexivity|].
      destruct (word_at rest); [discriminate | reflexivity].
  - intros [Hp [rest [-> Hr]]].
    rewrite literal_complete, word_at_term_app, term_last_char, Hp, Hr. reflexivity.
Qed.

Lemma search_from_spec : forall s prev,
  search_from term prev s = true <->
  exists pre post,
    s = pre ++ term ++ post /\
    word_before (last_char prev pre) = false /\
    word_at post = false.
Proof.
  induction s as [|c s IH]; intros prev; simpl.
  - rewrite orb_false_r, match_word_here_spec. split.
    + intros [Hp [rest [E Hr]]]. exists [], rest. repeat split; assumption.
    + intros [pre [post [E [Hp Hr]]]].
      destruct pre as [|x pre]; [|discriminate].
      split; [exact Hp|]. exists post. split; assumption.
  - rewrite orb_true_iff, match_word_here_spec, IH. split.
    + intros [[Hp [rest [E Hr]]] | [pre [post [E [Hp Hr]]]]].
      * exists [], rest. repeat split; assumption.
      * exists (c :: pre), post. rewrite last_char_cons.
        repeat split; [simpl; congruence | assumption | assumption].
    + intros [pre [post [E [Hp Hr]]]]. destruct pre as [|x pre].
      * left. split; [exact Hp|]. exists post. split; assumption.
      * right. simpl in E. inversion E; subst. rewrite last_char_cons in Hp.
        exists pre, post. repeat split; assumption.
Qed.

Lemma search_word_spec txt :
  search_word term txt = true <-> whole_word_occurrence term txt.
Proof.
  unfold search_word, whole_word_occurrence. rewrite search_from_spec.
  split; intros [pre [post [E [Hp Hr]]]]; exists pre, post;
    rewrite word_before_last_char in *; repeat split; assumption.
Qed.

End WordTerm.

End RegexFacts.

(** ** Dictionaries *)

Module DictFacts.

Section Facts.
Variable V : Type.
Implicit Types (d : dict V) (k : string).

Lemma mem_In k d : mem k d = true <-> In k (keys d).
Proof.
  induction d as [|[k' v] d IH]; simpl.
  - split; [discriminate | tauto].
  - rewrite orb_true_iff, IH, String.eqb_eq. split; intros [H|H]; auto.
Qed.

Lemma mem_app k d1 d2 : mem k (d1 ++ d2) = mem k d1 || mem k d2.
Proof.
  induction d1 as [|[k' v] d1 IH]; simpl; [reflexivity|].
  rewrite IH, orb_assoc. reflexivity.
Qed.

Lemma mem_pair k (v : V) d : In (k, v) d -> mem k d = true.
Proof. intro H. apply mem_In. unfold keys. change k with (fst (k, v)). now apply in_map. Qed.

Lemma mem_exists k d : mem k d = true <-> exists v, In (k, v) d.
Proof.
  split.
  - intro H. apply mem_In in H. unfold keys in H. apply in_map_iff in H.
    destruct H as [[k' v] [E H]]. simpl in E. subst. now exists v.
  - intros [v H]. eapply mem_pair; eauto.
Qed.

Lemma set_fresh k (v : V) d : mem k d = false -> set k v d = d ++ [(k, v)].
Proof.
  induction d as [|[k' v'] d IH]; simpl; intro H; [reflexivity|].
  apply orb_false_iff in H. destruct H as [E H]. rewrite E, IH; auto.
Qed.

Lemma update_last k (f : V -> V) (v : V) d :
  mem k d = false -> update k f (d ++ [(k, v)]) = d ++ [(k, f v)].
Proof.
  induction d as [|[k' v'] d IH]; simpl; intro H.
  - rewrite String.eqb_refl. reflexivity.
  - apply orb_false_iff in H. destruct H as [E H]. rewrite E, IH; auto.
Qed.

Lemma mem_last k (v : V) d : mem k (d ++ [(k, v)]) = true.
Proof. rewrite mem_app. simpl. rewrite String.eqb_refl. apply orb_true_r. Qed.

End Facts.

End DictFacts.

(** ** The term extractor against its closed form *)

Module ExtractFacts.
Import DictFacts.

Section Scan.
Variable txt : text.
Variable category : string.

Lemma record_term_open term l (d : dict (list string)) :
  mem category d = false ->
  record_term category term (d ++ [(category, l)]) = d ++ [(category, l ++ [term])].
Proof.
  intro H. unfold record_term. rewrite mem_last.
  exact (@update_last _ category (fun x => x ++ [term]) l d H).
Qed.

Lemma record_term_fresh term (d : dict (list string)) :
  mem category d = false ->
  record_term category term d = d ++ [(category, [term])].
Proof.
  intro H. unfold record_term. rewrite H, set_fresh by exact H.
  exact (@update_last _ category (fun x => x ++ [term]) [] d H).
Qed.

Lemma scan_terms_open : forall terms l (d : dict (list string)),
  mem category d = false ->
  scan_terms txt category terms (d ++ [(category, l)]) =
  d ++ [(category, l ++ filter (term_matches txt) terms)].
Proof.
  unfold scan_terms. induction terms as [|t terms IH]; intros l d H; simpl.
  - rewrite app_nil_r. reflexivity.
  - destruct (term_matches txt t).
    + rewrite record_term_open by exact H. rewrite IH by exact H.
      rewrite <- app_assoc. reflexivity.
    + apply IH. exact H.
Qed.

Lemma scan_terms_fresh : forall terms (d : dict (list string)),
  mem category d = false ->
  scan_terms txt category terms d =
  match filter (term_matches txt) terms with
  | [] => d
  | l => d ++ [(category, l)]
  end.
Proof.
  induction terms as [|t terms IH]; intros d H.
  - reflexivity.
  - unfold scan_terms in *. simpl. destruct (term_matches txt t).
    + rewrite record_term_fresh by exact H.
      exact (scan_terms_open terms [t] d H).
    + apply IH. exact H.
Qed.

End Scan.

Lemma fold_scan_spec txt : forall (config d : dict (list string)),
  NoDup (keys config) ->
  (forall k, In k (keys config) -> mem k d = false) ->
  fold_left (fun d entry => scan_terms txt (fst entry) (snd entry) d) config d =
  d ++ filter has_terms (map (matched_entry txt) config).
Proof.
  induction config as [|[c terms] config IH]; intros d Hnd Hfresh; simpl.
  - rewrite app_nil_r. reflexivity.
  - simpl in Hnd. inversion Hnd as [|? ? Hc Hnd']; subst.
    assert (Hcd : mem c d = false) by (apply Hfresh; left; reflexivity).
    rewrite scan_terms_fresh by exact Hcd.
    cbn [map filter].
    replace (has_terms (matched_entry txt (c, terms)))
      with (match filter (term_matches txt) terms with [] => false | _ :: _ => true end)
      by reflexivity.
    replace (matched_entry txt (c, terms))
      with (c, filter (term_matches txt) terms) by reflexivity.
    destruct (filter (term_matches txt) terms) as [|t l].
    + apply IH; [exact Hnd'|]. intros k Hk. apply Hfresh. right. exact Hk.
    + rewrite IH; [rewrite <- app_assoc; reflexivity | exact Hnd' |].
      intros k Hk. rewrite mem_app. simpl.
      rewrite (Hfresh k) by (right; exact Hk). simpl.
      rewrite orb_false_r. apply String.eqb_neq. intros ->. apply Hc. exact Hk.
Qed.

Lemma extract_terms_with_spec config txt :
  NoDup (keys config) ->
  extract_terms_with config txt = filter has_terms (map (matched_entry txt) config).
Proof.
  intro H. unfold extract_terms_with. rewrite fold_scan_spec; auto.
Qed.

Lemma FINANCIAL_TERMS_keys_NoDup : NoDup (keys FINANCIAL_TERMS).
Proof.
  unfold keys. simpl.
  repeat (constructor; [simpl; intuition discriminate|]). constructor.
Qed.

Lemma extract_financial_terms_spec s :
  extract_financial_terms s =
  filter has_terms (map (matched_entry (lower (of_string s))) FINANCIAL_TERMS).
Proof. apply extract_terms_with_spec, FINANCIAL_TERMS_keys_NoDup. Qed.

End ExtractFacts.

(** ** Facts of the static configuration *)

Unset Implicit Arguments.

Lemma FINANCIAL_TERMS_word_phrases :
  forall c terms t, In (c, terms) FINANCIAL_TERMS -> In t terms ->
  word_phrase (of_string t) = true.
Proof.
  assert (H : forallb (fun e => forallb (fun t => word_phrase (of_string t)) (snd e))
                FINANCIAL_TERMS = true) by (vm_compute; reflexivity).
  intros c terms t Hc Ht. rewrite forallb_forall in H.
  specialize (H _ Hc). simpl in H. rewrite forallb_forall in H. exact (H _ Ht).
Qed.

Lemma FINANCIAL_TERMS_terms_NoDup :
  forall c terms, In (c, terms) FINANCIAL_TERMS -> NoDup terms.
Proof.
  intros c terms H. simpl in H.
  repeat (destruct H as [H|H];
          [inversion H; subst; clear H;
           repeat (constructor; [simpl; intuition discriminate|]); constructor|]).
  contradiction.
Qed.

Lemma term_matches_spec c terms t txt :
  In (c, terms) FINANCIAL_TERMS -> In t terms ->
  (term_matches txt t = true <-> whole_word_occurrence (of_string t) txt).
Proof.
  intros Hc Ht. pose proof (FINANCIAL_TERMS_word_phrases _ _ _ Hc Ht) as Hw.
  unfold word_phrase in Hw. apply andb_true_iff in Hw. destruct Hw as [H1 H2].
  unfold term_matches. apply RegexFacts.search_word_spec; assumption.
Qed.

Lemma In_extract s c ts :
  In (c, ts) (extract_financial_terms s) <->
  exists terms, In (c, terms) FINANCIAL_TERMS /\
                ts = filter (term_matches (lower (of_string s))) terms /\ ts <> [].
Proof.
  rewrite ExtractFacts.extract_financial_terms_spec, filter_In, in_map_iff. split.
  - intros [[[c' terms] [E Hin]] Hne]. unfold matched_entry in E. simpl in E.
    inversion E; subst. exists terms. repeat split; auto.
    unfold has_terms in Hne. simpl in Hne. intro Hnil. rewrite Hnil in Hne. discriminate.
  - intros [terms [Hin [-> Hne]]]. split.
    + exists (c, terms). split; [reflexivity | exact Hin].
    + unfold has_terms. simpl.
      destruct (filter (term_matches (lower (of_string s))) terms); [congruence | reflexivity].
Qed.

Lemma whole_word_occurrence_lower phrase txt :
  lower phrase = phrase ->
  whole_word_occurrence phrase txt -> whole_word_occurrence phrase (lower txt).
Proof.
  intros Hl [pre [post [-> [Hp Hq]]]]. exists (lower pre), (lower post).
  rewrite !lower_app, Hl, word_at_rev_lower, word_at_lower. repeat split; assumption.
Qed.

(** ** Term extractor *)

(** C6: [extract_financial_terms] records a synonym under its category
    exactly when the phrase occurs in the lower-cased text as a whole word
    (whole phrase), between word boundaries; no category is present with an
    empty list; a query that contains "revenue" as a whole word yields the
    key revenue; "assets" inside "subassets" is not matched; and input made
    of whitespace only (the empty string included) gives the empty
    mapping. *)
Theorem extract_terms_whole_words (s : string) :
  (forall c t,
     (exists ts, In (c, ts) (extract_financial_terms s) /\ In t ts) <->
     (exists terms, In (c, terms) FINANCIAL_TERMS /\ In t terms /\
        whole_word_occurrence (of_string t) (lower (of_string s)))) /\
  (forall c ts, In (c, ts) (extract_financial_terms s) -> ts <> []) /\
  (whole_word_occurrence (of_string "revenue") (of_string s) ->
     mem "revenue" (extract_financial_terms s) = true) /\
  (forallb is_space (of_string s) = true -> extract_financial_terms s = []) /\
  extract_financial_terms "subassets" = [] /\
  extract_financial_terms "" = [].
Proof.
  assert (H1 : forall c t,
     (exists ts, In (c, ts) (extract_financial_terms s) /\ In t ts) <->
     (exists terms, In (c, terms) FINANCIAL_TERMS /\ In t terms /\
        whole_word_occurrence (of_string t) (lower (of_string s)))).
  { intros c t. split.
    - intros [ts [Hin Ht]]. apply In_extract in Hin.
      destruct Hin as [terms [Hc [-> _]]]. apply filter_In in Ht.
      destruct Ht as [Ht Hm]. exists terms. repeat split; auto.
      apply (term_matches_spec _ _ _ _ Hc Ht). exact Hm.
    - intros [terms [Hc [Ht Ho]]].
      apply (term_matches_spec _ _ _ _ Hc Ht) in Ho.
      exists (filter (term_matches (lower (of_string s))) terms).
      assert (Hf : In t (filter (term_matches (lower (of_string s))) terms))
        by (apply filter_In; split; assumption).
      split; [|exact Hf]. apply In_extract. exists terms. repeat split; auto.
      intro Hnil. rewrite Hnil in Hf. contradiction. }
  assert (H2 : forall c ts, In (c, ts) (extract_financial_terms s) -> ts <> []).
  { intros c ts Hin. apply In_extract in Hin. destruct Hin as [terms [_ [_ Hne]]]. exact Hne. }
  split; [exact H1|]. split; [exact H2|]. split; [|split; [|split]].
  - intro Ho. apply whole_word_occurrence_lower in Ho; [|vm_compute; reflexivity].
    apply DictFacts.mem_exists.
    destruct (proj2 (H1 "revenue" "revenue")) as [ts [Hin _]].
    + eexists. split; [left; reflexivity|]. split; [left; reflexivity | exact Ho].
    + exists ts. exact Hin.
  - intro Hsp. destruct (extract_financial_terms s) as [|[c ts] r] eqn:E; [reflexivity|].
    exfalso.
    assert (Hin : In (c, ts) ((c, ts) :: r)) by (left; reflexivity).
    pose proof (H2 c ts Hin) as Hne.
    destruct ts as [|t ts]; [congruence|].
    destruct (proj1 (H1 c t)) as [terms [Hc [Ht Ho]]].
    { exists (t :: ts). split; [exact Hin | left; reflexivity]. }
    pose proof (FINANCIAL_TERMS_word_phrases _ _ _ Hc Ht) as Hw.
    unfold word_phrase in Hw. apply andb_true_iff in Hw. destruct Hw as [Hw _].
    destruct Ho as [pre [post [Etxt _]]].
    destruct (of_string t) as [|x tx]; [discriminate|]. simpl in Hw.
    assert (Hx : In x (lower (of_string s))).
    { rewrite Etxt. apply in_or_app. right. left. reflexivity. }
    unfold lower in Hx. apply in_map_iff in Hx. destruct Hx as [y [Ey Hy]].
    rewrite forallb_forall in Hsp. specialize (Hsp y Hy).
    rewrite lower_char_space in Ey by exact Hsp. subst y.
    apply space_not_word in Hsp. congruence.
  - vm_compute. reflexivity.
  - vm_compute. reflexivity.
Qed.

(** C10: in the mapping returned by [extract_financial_terms] every value
    list is non-empty, has no repeated synonym, and is the configured
    synonym list of its category restricted to the synonyms that match,
    hence in the configured order. *)
Theorem extracted_lists_in_configured_order (s c : string) (ts : list string) :
  In (c, ts) (extract_financial_terms s) ->
  ts <> [] /\ NoDup ts /\
  exists terms, In (c, terms) FINANCIAL_TERMS /\
                ts = filter (term_matches (lower (of_string s))) terms.
Proof.
  intro Hin. apply In_extract in Hin. destruct Hin as [terms [Hc [E Hne]]].
  split; [exact Hne|]. split.
  - rewrite E. apply NoDup_filter. exact (FINANCIAL_TERMS_terms_NoDup _ _ Hc).
  - exists terms. split; assumption.
Qed.

(** ** Query analyser: metrics and flags *)

Lemma analyze_query_terms engine q c :
  financial_terms (analyze_query engine q c) = extract_financial_terms q.
Proof. reflexivity. Qed.

Lemma metrics_closed_form (terms : dict (list string)) :
  append_if_present "cash_flow" terms
    (append_if_present "liabilities" terms
       (append_if_present "assets" terms
          (append_if_present "net_income" terms
             (append_if_present "revenue" terms [])))) =
  filter (fun k => mem k terms) METRIC_KEYS.
Proof.
  unfold append_if_present, METRIC_KEYS. simpl.
  destruct (mem "revenue" terms), (mem "net_income" terms), (mem "assets" terms),
    (mem "liabilities" terms), (mem "cash_flow" terms); reflexivity.
Qed.

Lemma analyze_query_metrics engine q c :
  metrics (analyze_query engine q c) =
  match filter (fun k => mem k (extract_financial_terms q)) METRIC_KEYS with
  | [] => ["all"%string]
  | _ :: _ => filter (fun k => mem k (extract_financial_terms q)) METRIC_KEYS
  end.
Proof.
  unfold analyze_query. cbn [metrics info_financial_terms identify_query_type].
  rewrite metrics_closed_form. reflexivity.
Qed.

(** C4: [metrics] is ["all"] exactly when none of the five metric keys is
    a key of [financial_terms], and otherwise it is the list of the metric
    keys present, in the fixed order revenue, net_income, assets,
    liabilities, cash_flow; each flag is the presence of its category key
    in [financial_terms], which depends on the query alone and so not on
    the intent, the engine or the company. *)
Theorem metrics_and_flags (engine : option SimilarityEngine) (q c : string) :
  (metrics (analyze_query engine q c) = ["all"%string] <->
   forall k, In k METRIC_KEYS -> mem k (financial_terms (analyze_query engine q c)) = false) /\
  ((exists k, In k METRIC_KEYS /\ mem k (financial_terms (analyze_query engine q c)) = true) ->
   metrics (analyze_query engine q c) =
   filter (fun k => mem k (financial_terms (analyze_query engine q c))) METRIC_KEYS) /\
  is_comparison (analyze_query engine q c) =
    mem "comparison" (financial_terms (analyze_query engine q c)) /\
  is_trend (analyze_query engine q c) =
    mem "trend" (financial_terms (analyze_query engine q c)) /\
  is_forecast (analyze_query engine q c) =
    mem "forecast" (financial_terms (analyze_query engine q c)) /\
  financial_terms (analyze_query engine q c) = extract_financial_terms q.
Proof.
  rewrite analyze_query_metrics, analyze_query_terms.
  set (terms := extract_financial_terms q).
  split; [|split; [|repeat split]].
  - unfold METRIC_KEYS. simpl. split.
    + intros H k Hk.
      destruct (mem "revenue" terms) eqn:E1; [discriminate|].
      destruct (mem "net_income" terms) eqn:E2; [discriminate|].
      destruct (mem "assets" terms) eqn:E3; [discriminate|].
      destruct (mem "liabilities" terms) eqn:E4; [discriminate|].
      destruct (mem "cash_flow" terms) eqn:E5; [discriminate|].
      destruct Hk as [<-|[<-|[<-|[<-|[<-|[]]]]]]; assumption.
    + intro H.
      rewrite (H "revenue"%string), (H "net_income"%string), (H "assets"%string),
        (H "liabilities"%string), (H "cash_flow"%string); simpl; tauto.
  - intros [k [Hk Hm]].
    destruct (filter (fun k0 => mem k0 terms) METRIC_KEYS) eqn:E; [|reflexivity].
    exfalso. assert (Hin : In k (filter (fun k0 => mem k0 terms) METRIC_KEYS))
      by (apply filter_In; split; assumption).
    rewrite E in Hin. contradiction.
Qed.

(** ** Years mentioned in the query *)

Module YearFacts.
Import Regex.
Local Open Scope nat_scope.

Lemma digit_word c : is_digit c = true -> is_word_char c = true.
Proof. intro H. unfold is_word_char. rewrite H. reflexivity. Qed.

Lemma match_year_after_word prev s :
  word_before prev = true -> match_year_here prev s = None.
Proof.
  intro Hp. destruct s as [|c1 [|c2 [|c3 [|c4 rest]]]]; try reflexivity.
  unfold match_year_here, boundary. rewrite Hp. simpl word_at.
  destruct (Ascii.eqb c1 "2") eqn:E.
  - apply Ascii.eqb_eq in E. subst c1. reflexivity.
  - rewrite andb_false_r. reflexivity.
Qed.

Lemma match_year_here_words prev c s y :
  match_year_here prev (c :: s) = Some y ->
  is_word_char c = true /\ forallb is_word_char (firstn 3 s) = true.
Proof.
  destruct s as [|c2 [|c3 [|c4 rest]]]; try discriminate.
  unfold match_year_here.
  destruct (Ascii.eqb c "2") eqn:E1; [|rewrite andb_false_r; discriminate].
  destruct (Ascii.eqb c2 "0") eqn:E2; [|rewrite andb_false_r; discriminate].
  destruct (is_digit c3) eqn:E3; [|rewrite andb_false_r; discriminate].
  destruct (is_digit c4) eqn:E4; [|rewrite andb_false_r; discriminate].
  intros _. apply Ascii.eqb_eq in E1, E2. subst. simpl.
  rewrite (digit_word _ E3), (digit_word _ E4). split; reflexivity.
Qed.

Lemma findall_years_from_everywhere : forall s k prev,
  (k <> 0 -> word_before prev = true) ->
  forallb is_word_char (firstn k s) = true ->
  findall_years_from k prev s = years_everywhere prev s.
Proof.
  induction s as [|c s IH]; intros k prev Hp Hw; [reflexivity|].
  destruct k as [|k]; cbn [findall_years_from years_everywhere].
  - destruct (match_year_here prev (c :: s)) as [y|] eqn:E.
    + apply match_year_here_words in E. destruct E as [Hc Hs].
      cbn [app]. f_equal. apply IH; [intros _; exact Hc | exact Hs].
    + cbn [app]. apply IH; [congruence | reflexivity].
  - rewrite match_year_after_word by (apply Hp; discriminate).
    cbn [firstn forallb] in Hw. apply andb_true_iff in Hw. destruct Hw as [Hc Hs].
    cbn [app]. apply IH; [intros _; exact Hc | exact Hs].
Qed.

Lemma last_char_snoc pre c : last_char None (pre ++ [c]) = Some c.
Proof. unfold last_char. rewrite rev_app_distr. reflexivity. Qed.

Lemma skipn_length_plus (pre s : text) n :
  skipn (List.length pre + n) (pre ++ s) = skipn n s.
Proof. induction pre as [|x pre IH]; simpl; [reflexivity | exact IH]. Qed.

Lemma skipn_length (pre s : text) : skipn (List.length pre) (pre ++ s) = s.
Proof. induction pre as [|x pre IH]; simpl; [reflexivity | exact IH]. Qed.

Lemma firstn_length (pre s : text) : firstn (List.length pre) (pre ++ s) = pre.
Proof. induction pre as [|x pre IH]; simpl; [reflexivity | now rewrite IH]. Qed.

Lemma year_here_bounded pre s :
  match match_year_here (last_char None pre) s with
  | Some y => [y]
  | None => []
  end = bounded_year_at (pre ++ s) (List.length pre).
Proof.
  unfold bounded_year_at.
  rewrite skipn_length_plus, skipn_length, firstn_length.
  rewrite <- RegexFacts.word_before_last_char.
  destruct s as [|c1 [|c2 [|c3 [|c4 rest]]]]; try reflexivity.
  unfold match_year_here, boundary, is_year. cbn [firstn skipn].
  change (word_at (c1 :: c2 :: c3 :: c4 :: rest)) with (is_word_char c1).
  change (word_before (Some c4)) with (is_word_char c4).
  destruct (Ascii.eqb c1 "2") eqn:E1.
  - apply Ascii.eqb_eq in E1. subst c1. change (is_word_char "2") with true.
    destruct (word_before (last_char None pre)), (Ascii.eqb c2 "0"), (is_digit c3);
      try reflexivity;
      destruct (is_digit c4) eqn:E4; try reflexivity;
      rewrite (digit_word _ E4); destruct (word_at rest); reflexivity.
  - destruct (word_before (last_char None pre)), (is_word_char c1); reflexivity.
Qed.

Lemma years_everywhere_bounded : forall s pre,
  years_everywhere (last_char None pre) s =
  flat_map (bounded_year_at (pre ++ s)) (seq (List.length pre) (List.length s)).
Proof.
  induction s as [|c s IH]; intro pre; [reflexivity|].
  cbn [years_everywhere List.length seq flat_map].
  rewrite year_here_bounded. f_equal.
  specialize (IH (pre ++ [c])).
  rewrite last_char_snoc, <- app_assoc, length_app in IH. simpl in IH.
  rewrite Nat.add_1_r in IH. exact IH.
Qed.

Lemma findall_years_spec txt : findall_years txt = bounded_years txt.
Proof.
  unfold findall_years, bounded_years.
  rewrite findall_years_from_everywhere; [|congruence | reflexivity].
  exact (years_everywhere_bounded txt []).
Qed.

Lemma is_year_length y : is_year y = true -> List.length y = 4.
Proof.
  destruct y as [|c1 [|c2 [|c3 [|c4 [|c5 r]]]]]; simpl; try discriminate. reflexivity.
Qed.

Lemma bounded_occurrence_found pre y post :
  is_year y = true ->
  word_at (rev pre) = false -> word_at post = false ->
  In y (bounded_years (pre ++ y ++ post)).
Proof.
  intros Hy Hp Hq. unfold bounded_years. apply in_flat_map.
  exists (List.length pre). split.
  - apply in_seq. rewrite !length_app, (is_year_length _ Hy). lia.
  - unfold bounded_year_at.
    rewrite skipn_length_plus, skipn_length, firstn_length.
    rewrite <- (is_year_length _ Hy), skipn_length, firstn_length, Hy, Hp, Hq.
    left. reflexivity.
Qed.

End YearFacts.

(** C5, as the code has it: [time_periods] lists, from left to right and
    with repetitions, exactly the four-character years (a two, a zero and
    two digits) that stand in the query between word boundaries, that is
    neither preceded nor followed by a letter, a digit or an underscore; in
    particular every such occurrence is listed, and "Compare 2022 and 2022"
    gives 2022 twice. *)
Theorem time_periods_bounded_years (engine : option SimilarityEngine) (q c : string) :
  time_periods (analyze_query engine q c) = map to_string (bounded_years (of_string q)) /\
  (forall pre y post,
     of_string q = pre ++ y ++ post -> is_year y = true ->
     Regex.word_at (rev pre) = false -> Regex.word_at post = false ->
     In (to_string y) (time_periods (analyze_query engine q c))) /\
  time_periods (analyze_query engine "Compare 2022 and 2022" c) = ["2022"; "2022"]%string.
Proof.
  assert (H : forall q', time_periods (analyze_query engine q' c) =
                         map to_string (bounded_years (of_string q'))).
  { intro q'. unfold analyze_query. cbn [time_periods].
    rewrite YearFacts.findall_years_spec.
    destruct (map to_string (bounded_years (of_string q'))); reflexivity. }
  split; [apply H|]. split.
  - intros pre y post E Hy Hp Hq. rewrite H, E. apply in_map.
    apply YearFacts.bounded_occurrence_found; assumption.
  - rewrite H. vm_compute. reflexivity.
Qed.

(** C5, counterexample: "2023" is a four-digit substring of "20234" that
    starts with "20", and [time_periods] is empty. *)
Lemma year_inside_longer_number_not_listed :
  is_year (of_string "2023") = true /\
  contains (of_string "2023") (of_string "20234") = true /\
  time_periods (analyze_query None "20234" "Acme") = [].
Proof. repeat split; vm_compute; reflexivity. Qed.

(** ** The scoring loop *)

Module LoopFacts.

Lemma score_templates_pairs e (m : matrix e) qt n st :
  score_templates e m qt n st =
  fold_left pick (map (fun i => (qt, cosine_similarity e m i)) (seq 1 n)) st.
Proof.
  unfold score_templates. generalize (seq 1 n) as l. intro l. revert st.
  induction l as [|i l IH]; intro st; simpl; [reflexivity|].
  rewrite IH. reflexivity.
Qed.

Lemma score_all_pairs e pq bank st :
  score_all e pq bank st = fold_left pick (scored_pairs e pq bank) st.
Proof.
  unfold score_all, scored_pairs. revert st.
  induction bank as [|entry bank IH]; intro st; simpl; [reflexivity|].
  rewrite fold_left_app, <- IH. f_equal.
  unfold score_query_type. cbn [List.length Nat.sub]. rewrite ?Nat.sub_0_r.
  destruct (fit_transform e (pq :: snd entry)) as [m|]; [|reflexivity].
  apply score_templates_pairs.
Qed.

Lemma fold_pick_stable : forall l st,
  (forall p, In p l -> snd p <= snd st) -> fold_left pick l st = st.
Proof.
  induction l as [|x l IH]; intros st H; simpl; [reflexivity|].
  unfold pick at 2. destruct (Rgt_dec (snd x) (snd st)) as [Hgt|_].
  - specialize (H x (or_introl eq_refl)). lra.
  - apply IH. intros p Hp. apply H. right. exact Hp.
Qed.

Lemma fold_pick_below : forall l st s,
  snd st < s -> (forall p, In p l -> snd p < s) -> snd (fold_left pick l st) < s.
Proof.
  induction l as [|x l IH]; intros st s Hst H; simpl; [exact Hst|].
  apply IH.
  - unfold pick. destruct (Rgt_dec (snd x) (snd st)); simpl; [|exact Hst].
    apply H. left. reflexivity.
  - intros p Hp. apply H. right. exact Hp.
Qed.

(** The first pair that reaches the maximum wins. *)
Lemma fold_pick_first_max pre it s post st :
  snd st < s ->
  (forall p, In p pre -> snd p < s) ->
  (forall p, In p post -> snd p <= s) ->
  fold_left pick (pre ++ (it, s) :: post) st = (Some it, s).
Proof.
  intros Hst Hpre Hpost. rewrite fold_left_app. simpl.
  pose proof (fold_pick_below pre st s Hst Hpre) as Hb.
  unfold pick at 2. simpl.
  destruct (Rgt_dec s (snd (fold_left pick pre st))) as [_|Hn]; [|lra].
  apply fold_pick_stable. exact Hpost.
Qed.

(** What the loop can end in: the initial state, or the pair of a maximal
    score above the initial one. *)
Lemma fold_pick_cases : forall l st,
  (fold_left pick l st = st /\ forall p, In p l -> snd p <= snd st) \/
  (exists p, In p l /\ fold_left pick l st = (Some (fst p), snd p) /\
             snd st < snd p /\ forall p', In p' l -> snd p' <= snd p).
Proof.
  induction l as [|x l IH] using rev_ind; intro st.
  - left. split; [reflexivity | intros p []].
  - rewrite fold_left_app. simpl. unfold pick at 1 3.
    destruct (IH st) as [[E Hle] | [p [Hin [E [Hlt Hmax]]]]]; rewrite E.
    + destruct (Rgt_dec (snd x) (snd st)) as [Hgt|Hn].
      * right. exists x. split; [apply in_or_app; right; left; reflexivity|].
        split; [reflexivity|]. split; [lra|].
        intros p' Hp'. apply in_app_or in Hp'. destruct Hp' as [Hp'|[<-|[]]].
        -- specialize (Hle p' Hp'). lra.
        -- lra.
      * left. split; [reflexivity|].
        intros p' Hp'. apply in_app_or in Hp'. destruct Hp' as [Hp'|[<-|[]]].
        -- apply Hle. exact Hp'.
        -- lra.
    + simpl. destruct (Rgt_dec (snd x) (snd p)) as [Hgt|Hn].
      * right. exists x. split; [apply in_or_app; right; left; reflexivity|].
        split; [reflexivity|]. split; [lra|].
        intros p' Hp'. apply in_app_or in Hp'. destruct Hp' as [Hp'|[<-|[]]].
        -- specialize (Hmax p' Hp'). lra.
        -- lra.
      * right. exists p. split; [apply in_or_app; left; exact Hin|].
        split; [reflexivity|]. split; [exact Hlt|].
        intros p' Hp'. apply in_app_or in Hp'. destruct Hp' as [Hp'|[<-|[]]].
        -- apply Hmax. exact Hp'.
        -- lra.
Qed.

(** The classifier on the similarity path, from the state the loop ends
    in. *)
Lemma identify_with_engine e q c :
  let r := fold_left pick
             (scored_pairs e (preprocess_text q) (format_templates c)) (None, -1) in
  info_query_type (identify_query_type (Some e) q c) =
    match fst r, first_key (extract_financial_terms q) with
    | Some it, _ => Some it
    | None, Some k => Some k
    | None, None => Some "performance_query"%string
    end /\
  info_confidence (identify_query_type (Some e) q c) =
    match fst r, first_key (extract_financial_terms q) with
    | None, None => 0.2
    | _, _ => if Rgt_dec (snd r) 0 then snd r else 0.3
    end.
Proof.
  unfold identify_query_type. rewrite score_all_pairs.
  destruct (fold_left pick _ _) as [[it|] hs]; simpl.
  - split; reflexivity.
  - destruct (first_key (extract_financial_terms q)); simpl; split; reflexivity.
Qed.

Lemma scored_pairs_bounded e pq bank :
  scores_at_most_one (Some e) ->
  forall p, In p (scored_pairs e pq bank) -> snd p <= 1.
Proof.
  intros Hb p Hp. unfold scored_pairs in Hp. apply in_flat_map in Hp.
  destruct Hp as [entry [_ Hp]].
  destruct (fit_transform e (pq :: snd entry)) as [m|] eqn:E; [|contradiction].
  apply in_map_iff in Hp. destruct Hp as [i [<- _]]. simpl.
  exact (Hb _ _ i E).
Qed.

Lemma scored_pairs_app e pq bank1 bank2 :
  scored_pairs e pq (bank1 ++ bank2) =
  scored_pairs e pq bank1 ++ scored_pairs e pq bank2.
Proof. unfold scored_pairs. apply flat_map_app. Qed.

End LoopFacts.

(** ** Intent classifier *)

Lemma analyze_query_type engine q c :
  query_type (analyze_query engine q c) =
  info_query_type (identify_query_type engine q c).
Proof. reflexivity. Qed.

Lemma analyze_query_confidence engine q c :
  confidence (analyze_query engine q c) =
  info_confidence (identify_query_type engine q c).
Proof. reflexivity. Qed.

(** C7: on the similarity path the query type of the first pair, in the
    order of the template bank, that reaches the maximal score is the one
    returned: pairs before it score strictly less, pairs after it score at
    most as much and do not replace it.  The result is a function of the
    engine's scores, so equal inputs give equal results. *)
Theorem first_maximal_pair_wins (e : SimilarityEngine) (q c : string)
    (pre : list (string * R)) (it : string) (s : R) (post : list (string * R)) :
  scored_pairs e (preprocess_text q) (format_templates c) = pre ++ (it, s) :: post ->
  (forall p, In p pre -> snd p < s) ->
  (forall p, In p post -> snd p <= s) ->
  -1 < s ->
  query_type (analyze_query (Some e) q c) = Some it /\
  confidence (analyze_query (Some e) q c) = (if Rgt_dec s 0 then s else 0.3).
Proof.
  intros E Hpre Hpost Hs.
  rewrite analyze_query_type, analyze_query_confidence.
  destruct (LoopFacts.identify_with_engine e q c) as [Ht Hc].
  rewrite Ht, Hc, E.
  rewrite (LoopFacts.fold_pick_first_max pre it s post (None, -1) Hs Hpre Hpost).
  simpl. split; reflexivity.
Qed.

Lemma scored_pairs_constant s pq bank :
  forall p, In p (scored_pairs (constant_engine s) pq bank) -> snd p = s.
Proof.
  intros p Hp. unfold scored_pairs in Hp. apply in_flat_map in Hp.
  destruct Hp as [entry [_ Hp]]. simpl in Hp.
  apply in_map_iff in Hp. destruct Hp as [i [<- _]]. reflexivity.
Qed.

Lemma In_tl {A : Type} (x : A) (l : list A) : In x (tl l) -> In x l.
Proof. destruct l; simpl; auto. Qed.

Lemma first_maximal_pair_wins_witness :
  query_type (analyze_query (Some (constant_engine (1/2))) "hello" "Acme")
    = Some "revenue_query"%string /\
  confidence (analyze_query (Some (constant_engine (1/2))) "hello" "Acme")
    = (if Rgt_dec (1/2) 0 then 1/2 else 0.3).
Proof.
  apply (first_maximal_pair_wins (constant_engine (1/2)) "hello" "Acme" []
           "revenue_query" (1/2)
           (tl (scored_pairs (constant_engine (1/2)) (preprocess_text "hello")
                  (format_templates "Acme")))).
  - reflexivity.
  - intros p Hp. destruct Hp.
  - intros p Hp. apply In_tl in Hp. apply scored_pairs_constant in Hp.
    rewrite Hp. apply Rle_refl.
  - lra.
Defined.

Lemma scored_pairs_all_fail e pq bank :
  (forall docs, fit_transform e docs = None) -> scored_pairs e pq bank = [].
Proof.
  intro Hfail. unfold scored_pairs. induction bank as [|entry bank IH]; simpl.
  - reflexivity.
  - rewrite Hfail. exact IH.
Qed.

(** C8: whatever the engine does, [analyze_query] yields a complete
    analysis with a query type; a query type whose vectorisation raises is
    skipped and the loop goes on as if the bank did not contain it; and
    when the vectorisation raises for every query type the result is the
    term-based match, or performance_query with confidence 0.2. *)
Theorem analysis_total_failures_skipped (engine : option SimilarityEngine) (q c : string) :
  (exists it, query_type (analyze_query engine q c) = Some it) /\
  metrics (analyze_query engine q c) <> [] /\
  (forall e pq bank1 entry bank2 st,
     fit_transform e (pq :: snd entry) = None ->
     score_all e pq (bank1 ++ entry :: bank2) st = score_all e pq (bank1 ++ bank2) st) /\
  (forall e, (forall docs, fit_transform e docs = None) ->
     query_type (analyze_query (Some e) q c) =
       match first_key (extract_financial_terms q) with
       | Some k => Some k
       | None => Some "performance_query"%string
       end /\
     confidence (analyze_query (Some e) q c) =
       match first_key (extract_financial_terms q) with
       | Some _ => 0.3
       | None => 0.2
       end).
Proof.
  split; [|split; [|split]].
  - rewrite analyze_query_type. destruct engine as [e|].
    + destruct (LoopFacts.identify_with_engine e q c) as [Ht _]. rewrite Ht.
      destruct (fst _) as [it|]; [exists it; reflexivity|].
      destruct (first_key _) as [k|]; eexists; reflexivity.
    + unfold identify_query_type.
      destruct (first_key (extract_financial_terms q)) as [k|]; simpl.
      * exists k. reflexivity.
      * destruct (keyword_match (lower (of_string q))) as [k|]; simpl; eexists; reflexivity.
  - rewrite analyze_query_metrics.
    destruct (filter _ METRIC_KEYS); discriminate.
  - intros e pq bank1 entry bank2 st Hfail.
    rewrite !LoopFacts.score_all_pairs, !LoopFacts.scored_pairs_app.
    f_equal. f_equal. unfold scored_pairs at 1. simpl. rewrite Hfail. reflexivity.
  - intros e Hfail. rewrite analyze_query_type, analyze_query_confidence.
    destruct (LoopFacts.identify_with_engine e q c) as [Ht Hc]. rewrite Ht, Hc.
    rewrite (scored_pairs_all_fail e _ _ Hfail). simpl.
    destruct (first_key (extract_financial_terms q)); split; try reflexivity.
    destruct (Rgt_dec (-1) 0); [lra | reflexivity].
Qed.

Lemma analysis_total_failures_skipped_witness :
  query_type (analyze_query (Some failing_engine) "total assets" "Acme")
    = Some "assets"%string /\
  confidence (analyze_query (Some failing_engine) "total assets" "Acme") = 0.3.
Proof.
  exact (proj2 (proj2 (proj2
           (analysis_total_failures_skipped (Some failing_engine) "total assets" "Acme")))
           failing_engine (fun _ => eq_refl)).
Defined.



(** ** The TF-IDF engine *)

Module SklearnFacts.
Import Sklearn.

Lemma dot_self_nonneg : forall x, 0 <= dot x x.
Proof.
  induction x as [|a x IH]; simpl; [lra|].
  pose proof (Rle_0_sqr a) as H. unfold Rsqr in H. lra.
Qed.

Lemma cauchy_schwarz_step a b A B C :
  0 <= A -> 0 <= B -> C * C <= A * B ->
  (a * b + C) * (a * b + C) <= (a * a + A) * (b * b + B).
Proof.
  intros HA HB HC.
  destruct (Req_dec A 0) as [E|E].
  - subst A. assert (C = 0) by nra. subst C. nra.
  - assert (0 < A) by lra.
    assert (H1 : 0 <= (a * a) * (A * B - C * C)) by (apply Rmult_le_pos; nra).
    pose proof (Rle_0_sqr (a * C - A * b)) as H2. unfold Rsqr in H2.
    assert (H3 : 0 <= A * (a * a * B + A * (b * b) - 2 * a * b * C)) by lra.
    assert (0 <= a * a * B + A * (b * b) - 2 * a * b * C).
    { destruct (Rle_lt_dec 0 (a * a * B + A * (b * b) - 2 * a * b * C)) as [Hle|Hlt];
        [exact Hle|].
      exfalso.
      assert (A * (a * a * B + A * (b * b) - 2 * a * b * C) < 0)
        by (apply Ropp_lt_cancel; rewrite Ropp_0, Ropp_mult_distr_r;
            apply Rmult_lt_0_compat; lra).
      lra. }
    lra.
Qed.

Lemma cauchy_schwarz : forall x y, dot x y * dot x y <= dot x x * dot y y.
Proof.
  induction x as [|a x IH]; intros [|b y]; simpl; try lra.
  apply cauchy_schwarz_step; [apply dot_self_nonneg | apply dot_self_nonneg | apply IH].
Qed.

Lemma dot_le_one x y : dot x x <= 1 -> dot y y <= 1 -> dot x y <= 1.
Proof.
  intros Hx Hy. pose proof (cauchy_schwarz x y) as H.
  pose proof (dot_self_nonneg x). pose proof (dot_self_nonneg y).
  assert (dot x x * dot y y <= 1) by nra.
  destruct (Rle_lt_dec (dot x y) 1) as [Hle|Hlt]; [exact Hle|].
  exfalso. assert (1 < dot x y * dot x y) by nra. lra.
Qed.

Lemma dot_scaled n : n <> 0 -> forall x y,
  dot (map (fun a => a / n) x) (map (fun a => a / n) y) = dot x y / (n * n).
Proof.
  intros Hn. induction x as [|a x IH]; intros [|b y]; simpl;
    try (unfold Rdiv; rewrite Rmult_0_l; reflexivity).
  rewrite IH. field. exact Hn.
Qed.

Lemma norm_square x : norm x * norm x = dot x x.
Proof. unfold norm. apply sqrt_sqrt, dot_self_nonneg. Qed.

Lemma normalize_unit x : norm x <> 0 -> dot (normalize x) (normalize x) = 1.
Proof.
  intro Hn. unfold normalize. destruct (Req_dec_T (norm x) 0) as [E|_]; [contradiction|].
  rewrite dot_scaled by exact Hn. rewrite <- norm_square. field. exact Hn.
Qed.

Lemma normalize_null x : norm x = 0 -> dot (normalize x) (normalize x) = 0.
Proof.
  intro Hn. unfold normalize. destruct (Req_dec_T (norm x) 0) as [_|E]; [|contradiction].
  rewrite dot_scaled by lra. rewrite <- norm_square, Hn. field.
Qed.

Lemma normalize_at_most_unit x : dot (normalize x) (normalize x) <= 1.
Proof.
  destruct (Req_dec (norm x) 0) as [E|E].
  - rewrite normalize_null by exact E. lra.
  - rewrite normalize_unit by exact E. lra.
Qed.

Lemma cosine_at_most_one m i : tfidf_cosine_similarity m i <= 1.
Proof.
  unfold tfidf_cosine_similarity. apply dot_le_one; apply normalize_at_most_unit.
Qed.

Lemma engine_scores_at_most_one : scores_at_most_one (Some engine).
Proof. intros docs m i _. apply cosine_at_most_one. Qed.

(** A document without tokens has a null row, and similarity zero. *)

Lemma dot_null_l : forall x y, (forall a, In a x -> a = 0) -> dot x y = 0.
Proof.
  induction x as [|a x IH]; intros [|b y] H; simpl; try reflexivity.
  rewrite (H a (or_introl eq_refl)), IH; [lra|].
  intros a' Ha'. apply H. right. exact Ha'.
Qed.

Lemma normalize_null_row x :
  (forall a, In a x -> a = 0) -> forall a, In a (normalize x) -> a = 0.
Proof.
  intros H a Ha. unfold normalize in Ha. apply in_map_iff in Ha.
  destruct Ha as [b [<- Hb]]. rewrite (H b Hb). unfold Rdiv. apply Rmult_0_l.
Qed.

Lemma tfidf_row_no_tokens docs voc doc :
  tokens doc = [] -> forall a, In a (tfidf_row docs voc doc) -> a = 0.
Proof.
  intros Ht a Ha. unfold tfidf_row in Ha. apply in_map_iff in Ha.
  destruct Ha as [t [<- _]]. unfold tf. rewrite Ht. simpl. apply Rmult_0_l.
Qed.

Lemma fit_transform_rows docs m :
  tfidf_fit_transform docs = Some m ->
  m = map (fun doc => normalize (tfidf_row docs (vocabulary docs) doc)) docs.
Proof.
  unfold tfidf_fit_transform. destruct (vocabulary docs) as [|t voc]; [discriminate|].
  intro H. inversion H. reflexivity.
Qed.

Lemma fit_transform_succeeds docs :
  vocabulary docs <> [] -> exists m, tfidf_fit_transform docs = Some m.
Proof.
  unfold tfidf_fit_transform. destruct (vocabulary docs) as [|t voc]; [congruence|].
  intros _. eexists. reflexivity.
Qed.

Lemma cosine_no_tokens q ts m i :
  tokens q = [] -> tfidf_fit_transform (q :: ts) = Some m ->
  tfidf_cosine_similarity m i = 0.
Proof.
  intros Ht Hm. apply fit_transform_rows in Hm. subst m.
  unfold tfidf_cosine_similarity. cbn [map nth]. apply dot_null_l.
  apply normalize_null_row, normalize_null_row, tfidf_row_no_tokens. exact Ht.
Qed.

(** A template equal to the query has similarity one. *)

Lemma idf_positive docs t : 0 < idf docs t.
Proof.
  unfold idf.
  set (n := INR (List.length docs)). set (d := INR (df docs t)).
  assert (Hd : 0 <= d) by apply pos_INR.
  assert (Hdn : d <= n) by (apply le_INR; unfold df; apply filter_length_le).
  assert (Hx : 1 <= (1 + n) / (1 + d)).
  { replace ((1 + n) / (1 + d)) with (1 + (n - d) * / (1 + d)) by (field; lra).
    assert (0 <= (n - d) * / (1 + d))
      by (apply Rmult_le_pos; [lra | left; apply Rinv_0_lt_compat; lra]).
    lra. }
  destruct (Req_dec ((1 + n) / (1 + d)) 1) as [E|E].
  - rewrite E, ln_1. lra.
  - pose proof (ln_increasing 1 ((1 + n) / (1 + d))) as H. rewrite ln_1 in H.
    assert (0 < ln ((1 + n) / (1 + d))) by (apply H; lra). lra.
Qed.

Lemma dot_self_positive (f : string -> R) : forall voc t,
  In t voc -> f t <> 0 -> 0 < dot (map f voc) (map f voc).
Proof.
  induction voc as [|v voc IH]; intros t Hin Hf; [contradiction|].
  simpl. pose proof (dot_self_nonneg (map f voc)) as Hrest.
  pose proof (Rle_0_sqr (f v)) as Hsq. unfold Rsqr in Hsq.
  destruct Hin as [->|Hin].
  - assert (0 < f t * f t) by (apply Rsqr_pos_lt in Hf; exact Hf). lra.
  - specialize (IH t Hin Hf). lra.
Qed.

Lemma tfidf_row_norm_nonzero docs doc :
  In doc docs -> tokens doc <> [] ->
  norm (tfidf_row docs (vocabulary docs) doc) <> 0.
Proof.
  intros Hdoc Htok. destruct (tokens doc) as [|t toks] eqn:E; [congruence|].
  assert (Hin : In t (tokens doc)) by (rewrite E; left; reflexivity).
  assert (Hvoc : In t (vocabulary docs)).
  { unfold vocabulary. apply nodup_In. apply in_concat.
    exists (tokens doc). split; [apply in_map; exact Hdoc | exact Hin]. }
  assert (Htf : (0 < tf t doc)%nat) by (unfold tf; apply count_occ_In; exact Hin).
  assert (Hw : INR (tf t doc) * idf docs t <> 0).
  { pose proof (idf_positive docs t). apply lt_0_INR in Htf.
    apply Rgt_not_eq. apply Rmult_lt_0_compat; assumption. }
  pose proof (dot_self_positive (fun t => INR (tf t doc) * idf docs t)
                (vocabulary docs) t Hvoc Hw) as Hpos.
  unfold norm, tfidf_row. apply Rgt_not_eq. apply sqrt_lt_R0. exact Hpos.
Qed.

Lemma cosine_same_doc q ts m j :
  tfidf_fit_transform (q :: ts) = Some m ->
  nth_error ts j = Some q -> tokens q <> [] ->
  tfidf_cosine_similarity m (S j) = 1.
Proof.
  intros Hm Hj Htok. apply fit_transform_rows in Hm. subst m.
  unfold tfidf_cosine_similarity. cbn [map nth].
  set (f := fun doc => normalize (tfidf_row (q :: ts) (vocabulary (q :: ts)) doc)).
  assert (Hrow : nth j (map f ts) [] = f q).
  { apply nth_error_nth. rewrite nth_error_map, Hj. reflexivity. }
  rewrite Hrow. apply normalize_unit.
  assert (Hunit : dot (f q) (f q) = 1).
  { apply normalize_unit. apply tfidf_row_norm_nonzero; [left; reflexivity | exact Htok]. }
  unfold norm. rewrite Hunit, sqrt_1. lra.
Qed.

End SklearnFacts.

(** ** Evaluations on the similarity path *)

Lemma first_pair_wins e q c qt t ts bank (m : matrix e) s :
  format_templates c = (qt, t :: ts) :: bank ->
  fit_transform e (preprocess_text q :: t :: ts) = Some m ->
  cosine_similarity e m 1 = s ->
  -1 < s ->
  (forall p, In p (scored_pairs e (preprocess_text q) (format_templates c)) -> snd p <= s) ->
  info_query_type (identify_query_type (Some e) q c) = Some qt /\
  info_confidence (identify_query_type (Some e) q c) = (if Rgt_dec s 0 then s else 0.3).
Proof.
  intros Hbank Hfit Hs Hlow Hmax.
  destruct (LoopFacts.identify_with_engine e q c) as [Ht Hc]. rewrite Ht, Hc.
  rewrite Hbank in *. unfold scored_pairs in *. cbn [flat_map fst snd] in *.
  rewrite Hfit in *. cbn [List.length seq map app] in *. rewrite Hs in *.
  match goal with
  | |- context [fold_left pick ((qt, s) :: ?post) _] =>
      assert (Hf : fold_left pick ((qt, s) :: post) (None, -1) = (Some qt, s))
        by (apply (LoopFacts.fold_pick_first_max [] qt s post (None, -1) Hlow);
            [intros p [] | intros p Hp; apply Hmax; right; exact Hp]);
      rewrite Hf
  end.
  simpl. split; reflexivity.
Qed.

Lemma scored_pairs_no_tokens pq bank :
  Sklearn.tokens pq = [] ->
  forall p, In p (scored_pairs Sklearn.engine pq bank) -> snd p = 0.
Proof.
  intros Ht p Hp. unfold scored_pairs in Hp. apply in_flat_map in Hp.
  destruct Hp as [entry [_ Hp]].
  destruct (fit_transform Sklearn.engine (pq :: snd entry)) as [m|] eqn:E; [|contradiction].
  apply in_map_iff in Hp. destruct Hp as [i [<- _]]. simpl.
  exact (SklearnFacts.cosine_no_tokens pq (snd entry) m i Ht E).
Qed.


Lemma sklearn_first_pair q c s :
  Sklearn.vocabulary
    (preprocess_text q :: snd (hd (""%string, []) (format_templates c))) <> [] ->
  (forall m,
     Sklearn.tfidf_fit_transform
       (preprocess_text q :: snd (hd (""%string, []) (format_templates c))) = Some m ->
     Sklearn.tfidf_cosine_similarity m 1 = s) ->
  -1 < s ->
  (forall p, In p (scored_pairs Sklearn.engine (preprocess_text q) (format_templates c)) ->
             snd p <= s) ->
  query_type (analyze_query (Some Sklearn.engine) q c) = Some "revenue_query"%string /\
  confidence (analyze_query (Some Sklearn.engine) q c) = (if Rgt_dec s 0 then s else 0.3).
Proof.
  intros Hvoc Hcos Hlow Hmax.
  destruct (SklearnFacts.fit_transform_succeeds _ Hvoc) as [m Hm].
  rewrite analyze_query_type, analyze_query_confidence.
  eapply (first_pair_wins Sklearn.engine q c).
  - reflexivity.
  - exact Hm.
  - exact (Hcos m Hm).
  - exact Hlow.
  - exact Hmax.
Qed.

Lemma scored_types_are_intents e pq c :
  forall p, In p (scored_pairs e pq (format_templates c)) -> In (fst p) INTENTS.
Proof.
  intros p Hp. unfold scored_pairs in Hp. apply in_flat_map in Hp.
  destruct Hp as [entry [Hentry Hp]].
  destruct (fit_transform e (pq :: snd entry)) as [m|]; [|contradiction].
  apply in_map_iff in Hp. destruct Hp as [i [<- _]]. cbn [fst].
  unfold format_templates in Hentry. apply in_map_iff in Hentry.
  destruct Hentry as [entry0 [<- Hin]]. cbn [fst].
  exact (in_map fst QUERY_TEMPLATES entry0 Hin).
Qed.

Lemma keyword_match_intent query_lower it :
  keyword_match query_lower = Some it -> In it INTENTS.
Proof.
  unfold keyword_match.
  repeat match goal with
         | |- context [if ?b then _ else _] => destruct b
         end;
    intro H; inversion H; subst; vm_compute; tauto.
Qed.

(** C1, on the code: the query type is never null; it is one of the nine
    query types or else the first category key of [financial_terms], which
    is what the path without scikit-learn returns whenever a financial term
    was found, and what the similarity path returns when no score was
    obtained.  For "total assets" without scikit-learn it is the category
    name assets, which is none of the nine. *)
Theorem query_type_intent_or_category (engine : option SimilarityEngine) (q c : string) :
  (exists it, query_type (analyze_query engine q c) = Some it /\
              (In it INTENTS \/ first_key (extract_financial_terms q) = Some it)) /\
  query_type (analyze_query None "total assets" "Acme") = Some "assets"%string /\
  ~ In "assets"%string INTENTS.
Proof.
  split; [|split].
  - rewrite analyze_query_type. destruct engine as [e|].
    + destruct (LoopFacts.identify_with_engine e q c) as [Ht _]. rewrite Ht.
      destruct (LoopFacts.fold_pick_cases
                  (scored_pairs e (preprocess_text q) (format_templates c)) (None, -1))
        as [[E _] | [p [Hin [E _]]]]; rewrite E; cbn [fst].
      * destruct (first_key (extract_financial_terms q)) as [k|].
        -- exists k. split; [reflexivity | right; reflexivity].
        -- eexists. split; [reflexivity | left; vm_compute; tauto].
      * exists (fst p). split; [reflexivity|]. left.
        exact (scored_types_are_intents e _ c p Hin).
    + unfold identify_query_type.
      destruct (first_key (extract_financial_terms q)) as [k|]; cbn [fst snd info_query_type].
      * exists k. split; [reflexivity | right; reflexivity].
      * destruct (keyword_match (lower (of_string q))) as [k|] eqn:E;
          cbn [fst snd info_query_type].
        -- exists k. split; [reflexivity | left; exact (keyword_match_intent _ _ E)].
        -- eexists. split; [reflexivity | left; vm_compute; tauto].
  - vm_compute. reflexivity.
  - vm_compute. intuition discriminate.
Qed.

(** C2, on the code: for "What is the revenue of Acme?" and the company
    Acme the similarity path returns revenue_query (the first template of
    that query type equals the query, similarity one); the path without
    scikit-learn returns the category name revenue with confidence 0.5. *)
Theorem revenue_question_both_paths :
  query_type (analyze_query (Some Sklearn.engine) "What is the revenue of Acme?" "Acme")
    = Some "revenue_query"%string /\
  confidence (analyze_query (Some Sklearn.engine) "What is the revenue of Acme?" "Acme") = 1 /\
  query_type (analyze_query None "What is the revenue of Acme?" "Acme")
    = Some "revenue"%string /\
  confidence (analyze_query None "What is the revenue of Acme?" "Acme") = 0.5 /\
  ~ In "revenue"%string INTENTS.
Proof.
  assert (H : query_type (analyze_query (Some Sklearn.engine)
                            "What is the revenue of Acme?" "Acme")
              = Some "revenue_query"%string /\
              confidence (analyze_query (Some Sklearn.engine)
                            "What is the revenue of Acme?" "Acme")
              = (if Rgt_dec 1 0 then 1 else 0.3)).
  { apply sklearn_first_pair.
    - vm_compute. discriminate.
    - intros m Hm.
      apply (SklearnFacts.cosine_same_doc _ _ m 0 Hm).
      + vm_compute. reflexivity.
      + vm_compute. discriminate.
    - lra.
    - apply LoopFacts.scored_pairs_bounded, SklearnFacts.engine_scores_at_most_one. }
  destruct H as [H1 H2]. split; [exact H1|]. split.
  - rewrite H2. destruct (Rgt_dec 1 0); [reflexivity | lra].
  - split; [vm_compute; reflexivity|]. split; [reflexivity|].
    vm_compute. intuition discriminate.
Qed.

(** C3, on the code: for the empty query the path without scikit-learn
    returns performance_query with confidence 0.2, metrics ["all"] and no
    time period, for every company; on the similarity path, with the
    company Acme, every score is zero, the first query type is kept, and
    the result is revenue_query with confidence 0.3. *)
Theorem empty_query_both_paths :
  (forall c,
     query_type (analyze_query None "" c) = Some "performance_query"%string /\
     confidence (analyze_query None "" c) = 0.2 /\
     metrics (analyze_query None "" c) = ["all"%string] /\
     time_periods (analyze_query None "" c) = []) /\
  query_type (analyze_query (Some Sklearn.engine) "" "Acme") = Some "revenue_query"%string /\
  confidence (analyze_query (Some Sklearn.engine) "" "Acme") = 0.3 /\
  metrics (analyze_query (Some Sklearn.engine) "" "Acme") = ["all"%string] /\
  time_periods (analyze_query (Some Sklearn.engine) "" "Acme") = [].
Proof.
  split.
  - intro c. repeat split; reflexivity.
  - assert (H : query_type (analyze_query (Some Sklearn.engine) "" "Acme")
                = Some "revenue_query"%string /\
                confidence (analyze_query (Some Sklearn.engine) "" "Acme")
                = (if Rgt_dec 0 0 then 0 else 0.3)).
    { apply sklearn_first_pair.
      - vm_compute. discriminate.
      - intros m Hm.
        apply (SklearnFacts.cosine_no_tokens _ _ m 1 (eq_refl : Sklearn.tokens "" = []) Hm).
      - lra.
      - intros p Hp.
        rewrite (scored_pairs_no_tokens _ _ (eq_refl : Sklearn.tokens "" = []) p Hp).
        lra. }
    destruct H as [H1 H2]. split; [exact H1|]. split.
    + rewrite H2. destruct (Rgt_dec 0 0); [lra | reflexivity].
    + split; reflexivity.
Qed.

(** ** Instances on concrete queries *)

Lemma extract_terms_whole_words_witness :
  mem "revenue" (extract_financial_terms "total revenue in 2023") = true.
Proof.
  apply (proj1 (proj2 (proj2 (extract_terms_whole_words "total revenue in 2023")))).
  exists (of_string "total "), (of_string " in 2023").
  repeat split; reflexivity.
Defined.

Lemma extracted_lists_in_configured_order_witness :
  In ("revenue"%string, ["revenue"; "sales"]%string)
     (extract_financial_terms "sales and revenue") /\
  ["revenue"; "sales"]%string <> [] /\
  NoDup ["revenue"; "sales"]%string /\
  exists terms, In ("revenue"%string, terms) FINANCIAL_TERMS /\
                ["revenue"; "sales"]%string =
                filter (term_matches (lower (of_string "sales and revenue"))) terms.
Proof.
  assert (H : In ("revenue"%string, ["revenue"; "sales"]%string)
                 (extract_financial_terms "sales and revenue"))
    by (vm_compute; left; reflexivity).
  split; [exact H|].
  exact (extracted_lists_in_configured_order "sales and revenue" "revenue"
           ["revenue"; "sales"]%string H).
Defined.

Lemma metrics_and_flags_witness :
  metrics (analyze_query None "revenue and debt" "Acme") =
  filter (fun k => mem k (financial_terms (analyze_query None "revenue and debt" "Acme")))
         METRIC_KEYS.
Proof.
  apply (proj1 (proj2 (metrics_and_flags None "revenue and debt" "Acme"))).
  exists "revenue"%string. split; [left; reflexivity | vm_compute; reflexivity].
Defined.

Lemma time_periods_bounded_years_witness :
  In "2023"%string (time_periods (analyze_query None "Results for 2023." "Acme")).
Proof.
  apply (proj1 (proj2 (time_periods_bounded_years None "Results for 2023." "Acme"))
           (of_string "Results for ") (of_string "2023") (of_string "."));
    reflexivity.
Defined.

Example extract_example :
  extract_financial_terms "Compare Acme vs Globex net income" =
  [ ("revenue", ["income"]); ("net_income", ["net income"; "income"]);
    ("comparison", ["compare"; "vs"]) ]%string.
Proof. vm_compute. reflexivity. Qed.

Example preprocess_example :
  preprocess_text (format "Show me {company}'s revenue" "Acme") = "show acme's revenue"%string.
Proof. vm_compute. reflexivity. Qed.

Example compare_example :
  is_comparison (analyze_query None "Compare Acme vs Globex" "Acme") = true /\
  get "comparison" (financial_terms (analyze_query None "Compare Acme vs Globex" "Acme"))
    = Some ["compare"; "vs"]%string.
Proof. split; vm_compute; reflexivity. Qed.

Example analyze_example_terms :
  query_type (analyze_query None "Compare revenue and debt in 2022 and 2022" "Acme")
    = Some "revenue"%string /\
  metrics (analyze_query None "Compare revenue and debt in 2022 and 2022" "Acme")
    = ["revenue"; "liabilities"]%string /\
  time_periods (analyze_query None "Compare revenue and debt in 2022 and 2022" "Acme")
    = ["2022"; "2022"]%string.
Proof. repeat split; vm_compute; reflexivity. Qed.

Example keyword_example :
  query_type (analyze_query None "How fast is Acme growing?" "Acme")
    = Some "growth_query"%string /\
  confidence (analyze_query None "How fast is Acme growing?" "Acme") = 0.3.
Proof. split; vm_compute; reflexivity. Qed.

(** * Further properties of the code *)

(** ** Order of the extracted categories *)

Module KeyOrderFacts.

Lemma has_terms_matched txt entry :
  has_terms (matched_entry txt entry) = existsb (term_matches txt) (snd entry).
Proof.
  unfold has_terms, matched_entry. simpl.
  induction (snd entry) as [|t l IH]; simpl; [reflexivity|].
  destruct (term_matches txt t); simpl; [reflexivity | exact IH].
Qed.

Lemma keys_matched txt : forall config : dict (list string),
  keys (filter has_terms (map (matched_entry txt) config)) =
  keys (filter (fun entry => existsb (term_matches txt) (snd entry)) config).
Proof.
  induction config as [|entry config IH]; simpl; [reflexivity|].
  rewrite has_terms_matched.
  destruct (existsb (term_matches txt) (snd entry)); simpl; [f_equal|]; exact IH.
Qed.

Lemma NoDup_keys_filter (f : string * list string -> bool) :
  forall config : dict (list string),
  NoDup (keys config) -> NoDup (keys (filter f config)).
Proof.
  induction config as [|entry config IH]; simpl; intro H; [constructor|].
  inversion H as [|? ? Hnotin Hnd]; subst.
  destruct (f entry); simpl; [|apply IH; exact Hnd].
  constructor; [|apply IH; exact Hnd].
  intro Hin. apply Hnotin. unfold keys in *. apply in_map_iff in Hin.
  destruct Hin as [e [E He]]. apply filter_In in He. destruct He as [He _].
  rewrite <- E. apply in_map. exact He.
Qed.

Lemma extracted_keys s :
  keys (extract_financial_terms s) =
  keys (filter (fun entry => existsb (term_matches (lower (of_string s))) (snd entry))
               FINANCIAL_TERMS).
Proof. rewrite ExtractFacts.extract_financial_terms_spec. apply keys_matched. Qed.

Lemma first_key_keys {V : Type} (d : dict V) : first_key d = hd_error (keys d).
Proof. destruct d as [|[k v] d]; reflexivity. Qed.

Lemma first_configured_key (f : string * list string -> bool) c0 terms0
    (rest : dict (list string)) :
  ~ In c0 (keys rest) ->
  In c0 (keys (filter f ((c0, terms0) :: rest))) ->
  hd_error (keys (filter f ((c0, terms0) :: rest))) = Some c0.
Proof.
  intros Hnotin Hin. simpl in *. destruct (f (c0, terms0)); [reflexivity|].
  exfalso. apply Hnotin. unfold keys in *. apply in_map_iff in Hin.
  destruct Hin as [e [E He]]. apply filter_In in He. destruct He as [He _].
  rewrite <- E. apply in_map. exact He.
Qed.

End KeyOrderFacts.

(** The keys of the mapping returned by [extract_financial_terms] are
    pairwise distinct and follow the order of [FINANCIAL_TERMS]: they are
    the configured categories that have a matching synonym; so the first
    key, which the classifier uses as term-based match, is the first
    configured category with a match. *)
Theorem extracted_keys_in_configured_order (s : string) :
  keys (extract_financial_terms s) =
    keys (filter (fun entry => existsb (term_matches (lower (of_string s))) (snd entry))
                 FINANCIAL_TERMS) /\
  NoDup (keys (extract_financial_terms s)) /\
  first_key (extract_financial_terms s) =
    hd_error (keys (filter (fun entry =>
                              existsb (term_matches (lower (of_string s))) (snd entry))
                           FINANCIAL_TERMS)).
Proof.
  split; [apply KeyOrderFacts.extracted_keys|]. split.
  - rewrite KeyOrderFacts.extracted_keys.
    apply KeyOrderFacts.NoDup_keys_filter, ExtractFacts.FINANCIAL_TERMS_keys_NoDup.
  - rewrite KeyOrderFacts.first_key_keys, KeyOrderFacts.extracted_keys. reflexivity.
Qed.

(** ** Shared synonyms of revenue and net income *)

Lemma occurrence_after_prefix (prefix phrase txt : text) :
  Regex.word_at (rev prefix) = false ->
  whole_word_occurrence (prefix ++ phrase) txt -> whole_word_occurrence phrase txt.
Proof.
  intros Hsep [pre [post [E [Hp Hq]]]]. exists (pre ++ prefix), post.
  split; [rewrite E, <- !app_assoc; reflexivity|]. split; [|exact Hq].
  rewrite rev_app_distr. destruct (rev prefix) as [|x r] eqn:Er.
  - apply (f_equal (@rev ascii)) in Er. rewrite rev_involutive in Er. subst prefix.
    simpl. exact Hp.
  - simpl. exact Hsep.
Qed.

Lemma extract_has_key s c terms t :
  In (c, terms) FINANCIAL_TERMS -> In t terms ->
  whole_word_occurrence (of_string t) (lower (of_string s)) ->
  mem c (extract_financial_terms s) = true.
Proof.
  intros Hc Ht Ho. apply (term_matches_spec _ _ _ _ Hc Ht) in Ho.
  apply DictFacts.mem_exists.
  exists (filter (term_matches (lower (of_string s))) terms).
  apply In_extract. exists terms. split; [exact Hc|]. split; [reflexivity|].
  intro Hnil.
  assert (Hf : In t (filter (term_matches (lower (of_string s))) terms))
    by (apply filter_In; split; assumption).
  rewrite Hnil in Hf. contradiction.
Qed.

(** A query in which the category net_income is found through a synonym
    other than "profit" and "bottom line" also yields the category
    revenue, because "income" and "earnings" are synonyms of both and are
    part of "net income" and "net earnings"; revenue is then the first key
    and the first metric, and without scikit-learn the query type. *)
Theorem net_income_question_counts_as_revenue
    (engine : option SimilarityEngine) (q c : string) :
  mem "net_income" (extract_financial_terms q) = true ->
  term_matches (lower (of_string q)) "profit" = false ->
  term_matches (lower (of_string q)) "bottom line" = false ->
  mem "revenue" (financial_terms (analyze_query engine q c)) = true /\
  hd_error (metrics (analyze_query engine q c)) = Some "revenue"%string /\
  query_type (analyze_query None q c) = Some "revenue"%string.
Proof.
  intros Hni Hprofit Hbottom.
  assert (Hrev : mem "revenue" (extract_financial_terms q) = true).
  { apply DictFacts.mem_exists in Hni. destruct Hni as [ts Hin].
    apply In_extract in Hin. destruct Hin as [terms [Hc [E Hne]]].
    assert (Hterms : terms =
      ["net income"; "profit"; "earnings"; "bottom line"; "net earnings"; "income"]%string).
    { simpl in Hc.
      repeat (destruct Hc as [Hc|Hc]; [inversion Hc; try reflexivity|]).
      contradiction. }
    subst terms.
    assert (Hrc : In ("revenue"%string,
                      ["revenue"; "sales"; "income"; "earnings"; "money"; "earn";
                       "top line"; "turnover"]%string) FINANCIAL_TERMS)
      by (left; reflexivity).
    destruct ts as [|t ts]; [congruence|].
    assert (Ht : In t (t :: ts)) by (left; reflexivity).
    rewrite E in Ht. apply filter_In in Ht. destruct Ht as [Ht Hm].
    assert (Ho : whole_word_occurrence (of_string t) (lower (of_string q)))
      by (apply (term_matches_spec _ _ _ _ Hc Ht); exact Hm).
    simpl in Ht.
    destruct Ht as [<-|[<-|[<-|[<-|[<-|[<-|[]]]]]]].
    - apply (extract_has_key q _ _ "income"%string Hrc); [simpl; tauto|].
      apply (occurrence_after_prefix (of_string "net ")); [reflexivity | exact Ho].
    - congruence.
    - apply (extract_has_key q _ _ "earnings"%string Hrc); [simpl; tauto | exact Ho].
    - congruence.
    - apply (extract_has_key q _ _ "earnings"%string Hrc); [simpl; tauto|].
      apply (occurrence_after_prefix (of_string "net ")); [reflexivity | exact Ho].
    - apply (extract_has_key q _ _ "income"%string Hrc); [simpl; tauto | exact Ho]. }
  assert (Hfirst : first_key (extract_financial_terms q) = Some "revenue"%string).
  { rewrite KeyOrderFacts.first_key_keys.
    pose proof (KeyOrderFacts.extracted_keys q) as Hk.
    apply DictFacts.mem_In in Hrev. rewrite Hk in Hrev. rewrite Hk.
    apply (KeyOrderFacts.first_configured_key _ "revenue"%string
             ["revenue"; "sales"; "income"; "earnings"; "money"; "earn";
              "top line"; "turnover"]%string (tl FINANCIAL_TERMS)).
    - vm_compute. intuition discriminate.
    - exact Hrev. }
  split; [rewrite analyze_query_terms; exact Hrev|]. split.
  - rewrite analyze_query_metrics. unfold METRIC_KEYS. cbn [filter].
    rewrite Hrev. reflexivity.
  - rewrite analyze_query_type. unfold identify_query_type.
    rewrite Hfirst. reflexivity.
Qed.

Lemma net_income_question_counts_as_revenue_witness :
  mem "revenue" (financial_terms (analyze_query None "What is the net income of Acme?" "Acme"))
    = true /\
  hd_error (metrics (analyze_query None "What is the net income of Acme?" "Acme"))
    = Some "revenue"%string /\
  query_type (analyze_query None "What is the net income of Acme?" "Acme")
    = Some "revenue"%string.
Proof.
  apply (net_income_question_counts_as_revenue None "What is the net income of Acme?" "Acme");
    vm_compute; reflexivity.
Defined.

(** ** The path without scikit-learn *)

Lemma categories_are_not_intents k :
  In k (keys FINANCIAL_TERMS) -> ~ In k INTENTS.
Proof.
  intros Hk Hi. vm_compute in Hk, Hi.
  repeat (destruct Hk as [Hk|Hk]; [subst k; intuition discriminate|]).
  contradiction.
Qed.

Lemma first_key_is_category q k :
  first_key (extract_financial_terms q) = Some k -> In k (keys FINANCIAL_TERMS).
Proof.
  intro H. rewrite KeyOrderFacts.first_key_keys, KeyOrderFacts.extracted_keys in H.
  assert (Hin : In k (keys (filter
             (fun entry => existsb (term_matches (lower (of_string q))) (snd entry))
             FINANCIAL_TERMS))).
  { destruct (keys _) as [|x l]; [discriminate|]. inversion H. left. reflexivity. }
  unfold keys in *. apply in_map_iff in Hin. destruct Hin as [e [E He]].
  apply filter_In in He. destruct He as [He _]. rewrite <- E. apply in_map. exact He.
Qed.

(** Without scikit-learn the query type is one of the nine query types
    exactly when no financial term is found in the query (confidence 0.3
    or 0.2); as soon as a term is found it is the first category key, which
    is none of the nine, with confidence 0.5. *)
Theorem term_match_shadows_keyword_rules (q c : string) :
  (extract_financial_terms q = [] ->
     (exists it, query_type (analyze_query None q c) = Some it /\ In it INTENTS) /\
     (confidence (analyze_query None q c) = 0.3 \/
      confidence (analyze_query None q c) = 0.2)) /\
  (extract_financial_terms q <> [] ->
     query_type (analyze_query None q c) = first_key (extract_financial_terms q) /\
     (forall it, query_type (analyze_query None q c) = Some it -> ~ In it INTENTS) /\
     confidence (analyze_query None q c) = 0.5).
Proof.
  rewrite analyze_query_type, analyze_query_confidence. unfold identify_query_type.
  split.
  - intro E. rewrite E. cbn [first_key fst snd info_query_type info_confidence].
    destruct (keyword_match (lower (of_string q))) as [k|] eqn:Ek;
      cbn [fst snd info_query_type info_confidence].
    + split; [|left; reflexivity].
      exists k. split; [reflexivity | exact (keyword_match_intent _ _ Ek)].
    + split; [|right; reflexivity].
      eexists. split; [reflexivity | vm_compute; tauto].
  - intro Hne.
    destruct (first_key (extract_financial_terms q)) as [k|] eqn:Ek.
    + cbn [fst snd info_query_type info_confidence].
      split; [reflexivity|]. split; [|reflexivity].
      intros it Hit. inversion Hit; subst it.
      apply categories_are_not_intents. exact (first_key_is_category q k Ek).
    + exfalso. apply Hne. destruct (extract_financial_terms q) as [|[k v] d];
        [reflexivity | discriminate].
Qed.

Lemma term_match_shadows_keyword_rules_witness :
  query_type (analyze_query None "Show me the sales trend" "Acme")
    = first_key (extract_financial_terms "Show me the sales trend") /\
  (forall it, query_type (analyze_query None "Show me the sales trend" "Acme") = Some it ->
              ~ In it INTENTS) /\
  confidence (analyze_query None "Show me the sales trend" "Acme") = 0.5.
Proof.
  apply (proj2 (term_match_shadows_keyword_rules "Show me the sales trend" "Acme")).
  vm_compute. discriminate.
Defined.

(** ** The listed years *)

Lemma is_prefix_app (a b : text) : is_prefix a (a ++ b) = true.
Proof.
  induction a as [|x a IH]; simpl; [reflexivity|].
  rewrite Ascii.eqb_refl. exact IH.
Qed.

Lemma contains_prefix (a b : text) : is_prefix a b = true -> contains a b = true.
Proof. intro H. destruct b; simpl; rewrite H; reflexivity. Qed.

Lemma contains_app (pre a post : text) : contains a (pre ++ a ++ post) = true.
Proof.
  induction pre as [|x pre IH]; simpl.
  - apply contains_prefix, is_prefix_app.
  - rewrite IH. apply orb_true_r.
Qed.

Lemma bounded_year_occurs txt y :
  In y (bounded_years txt) ->
  is_year y = true /\ exists pre post, txt = pre ++ y ++ post.
Proof.
  unfold bounded_years. intro H. apply in_flat_map in H.
  destruct H as [i [_ H]]. unfold bounded_year_at in H.
  destruct (is_year (firstn 4 (skipn i txt))
            && negb (Regex.word_at (rev (firstn i txt)))
            && negb (Regex.word_at (skipn (i + 4) txt))) eqn:Ec; [|destruct H].
  destruct H as [<-|[]].
  apply andb_true_iff in Ec. destruct Ec as [Ec _].
  apply andb_true_iff in Ec. destruct Ec as [Ey _].
  split; [exact Ey|].
  exists (firstn i txt), (skipn 4 (skipn i txt)).
  rewrite firstn_skipn, firstn_skipn. reflexivity.
Qed.

(** Every element of [time_periods] is a four-character year, a two and a
    zero followed by two digits, and is a substring of the query; a query
    without the character "2" has no time period. *)
Theorem time_periods_are_years_of_the_query
    (engine : option SimilarityEngine) (q c y : string) :
  In y (time_periods (analyze_query engine q c)) ->
  is_year (of_string y) = true /\
  String.length y = 4%nat /\
  contains (of_string y) (of_string q) = true /\
  In "2"%char (of_string q).
Proof.
  intro H.
  assert (E : time_periods (analyze_query engine q c) =
              map to_string (bounded_years (of_string q))).
  { unfold analyze_query. cbn [time_periods]. rewrite YearFacts.findall_years_spec.
    destruct (map to_string (bounded_years (of_string q))); reflexivity. }
  rewrite E in H. apply in_map_iff in H. destruct H as [y0 [<- Hy0]].
  apply bounded_year_occurs in Hy0. destruct Hy0 as [Hy [pre [post Et]]].
  unfold to_string, of_string in *.
  rewrite list_ascii_of_string_of_list_ascii.
  split; [exact Hy|]. split; [|split].
  - rewrite <- (YearFacts.is_year_length _ Hy).
    clear. induction y0 as [|x y0 IH]; simpl; [reflexivity | now rewrite IH].
  - rewrite Et. apply contains_app.
  - rewrite Et. apply in_or_app. right. apply in_or_app. left.
    destruct y0 as [|c1 [|c2 [|c3 [|c4 [|c5 r]]]]]; try discriminate.
    simpl in Hy. destruct (Ascii.eqb c1 "2") eqn:E1; [|discriminate].
    apply Ascii.eqb_eq in E1. subst c1. left. reflexivity.
Qed.

Lemma time_periods_are_years_of_the_query_witness :
  is_year (of_string "2023") = true /\
  String.length "2023" = 4%nat /\
  contains (of_string "2023") (of_string "Revenue in 2023?") = true /\
  In "2"%char (of_string "Revenue in 2023?").
Proof.
  apply (time_periods_are_years_of_the_query None "Revenue in 2023?" "Acme" "2023").
  vm_compute. left. reflexivity.
Defined.

(** ** Template formatting *)

Module FormatFacts.

Lemma format_skip company : forall s k,
  format_from k company s = format_from 0 company (skipn k s).
Proof.
  induction s as [|x s IH]; intros [|k]; try reflexivity.
  cbn [format_from skipn]. apply IH.
Qed.

Lemma format_without_placeholder company : forall b,
  contains PLACEHOLDER b = false -> format_from 0 company b = b.
Proof.
  induction b as [|x b IH]; intro H; [reflexivity|].
  cbn [contains] in H. apply orb_false_iff in H. destruct H as [Hp Hc].
  cbn [format_from]. rewrite Hp, IH by exact Hc. reflexivity.
Qed.

Lemma is_prefix_skipn : forall a s,
  is_prefix a s = true -> s = a ++ skipn (List.length a) s.
Proof.
  induction a as [|x a IH]; intros s H; [reflexivity|].
  destruct s as [|y s]; [discriminate|].
  cbn [is_prefix] in H. apply andb_true_iff in H. destruct H as [E H].
  apply Ascii.eqb_eq in E. subst y. cbn [List.length skipn app]. f_equal.
  apply IH. exact H.
Qed.

Lemma format_split company : forall s a b,
  split_placeholder s = Some (a, b) ->
  contains PLACEHOLDER b = false ->
  s = a ++ PLACEHOLDER ++ b /\ format_from 0 company s = a ++ company ++ b.
Proof.
  induction s as [|x s IH]; intros a b Hs Hb; [discriminate|].
  cbn [split_placeholder format_from] in *.
  destruct (is_prefix PLACEHOLDER (x :: s)) eqn:Ep.
  - inversion Hs; subst a b. cbn [app]. split.
    + exact (is_prefix_skipn PLACEHOLDER (x :: s) Ep).
    + rewrite format_skip. f_equal.
      apply format_without_placeholder. exact Hb.
  - destruct (split_placeholder s) as [[a' b']|]; [|discriminate].
    inversion Hs; subst a b. destruct (IH a' b' eq_refl Hb) as [E1 E2].
    cbn [app]. split; f_equal; assumption.
Qed.

Lemma templates_split :
  forallb
    (fun entry =>
       forallb
         (fun t =>
            match split_placeholder (of_string t) with
            | Some (a, b) => negb (contains PLACEHOLDER b)
            | None => false
            end)
         (snd entry))
    QUERY_TEMPLATES = true.
Proof. vm_compute. reflexivity. Qed.

End FormatFacts.

(** Every template of the bank contains the placeholder once, and
    formatting it replaces the placeholder by the company name, kept as it
    is, and changes nothing else. *)
Theorem format_substitutes_company (qt : string) (templates : list string)
    (t company : string) :
  In (qt, templates) QUERY_TEMPLATES -> In t templates ->
  exists a b,
    of_string t = a ++ PLACEHOLDER ++ b /\
    contains PLACEHOLDER a = false /\
    contains PLACEHOLDER b = false /\
    of_string (format t company) = a ++ of_string company ++ b.
Proof.
  intros Hq Ht.
  pose proof FormatFacts.templates_split as H.
  rewrite forallb_forall in H. specialize (H _ Hq). cbn [snd] in H.
  rewrite forallb_forall in H. specialize (H _ Ht).
  destruct (split_placeholder (of_string t)) as [[a b]|] eqn:Es; [|discriminate].
  apply negb_true_iff in H.
  destruct (FormatFacts.format_split (of_string company) _ _ _ Es H) as [E1 E2].
  exists a, b. split; [exact E1|]. split; [|split; [exact H|]].
  - assert (Ha : forallb
        (fun entry =>
           forallb
             (fun t =>
                match split_placeholder (of_string t) with
                | Some (a, b) => negb (contains PLACEHOLDER a)
                | None => false
                end)
             (snd entry))
        QUERY_TEMPLATES = true) by (vm_compute; reflexivity).
    rewrite forallb_forall in Ha. specialize (Ha _ Hq). cbn [snd] in Ha.
    rewrite forallb_forall in Ha. specialize (Ha _ Ht).
    rewrite Es in Ha. apply negb_true_iff in Ha. exact Ha.
  - unfold format, to_string, of_string in *.
    rewrite list_ascii_of_string_of_list_ascii. exact E2.
Qed.

Lemma format_substitutes_company_witness :
  exists a b,
    of_string "How is {company} performing?" = a ++ PLACEHOLDER ++ b /\
    contains PLACEHOLDER a = false /\
    contains PLACEHOLDER b = false /\
    of_string (format "How is {company} performing?" "Acme {Holdings}") =
      a ++ of_string "Acme {Holdings}" ++ b.
Proof.
  apply (format_substitutes_company "performance_query"
           (snd (nth 5 QUERY_TEMPLATES (""%string, [])))
           "How is {company} performing?" "Acme {Holdings}").
  - vm_compute. tauto.
  - vm_compute. tauto.
Defined.

(** ** Text normaliser *)

Module NormaliserFacts.

Lemma split_from_word : forall w cur rest,
  no_space w -> split_from cur (w ++ rest) = split_from (cur ++ w) rest.
Proof.
  induction w as [|x w IH]; intros cur rest H.
  - rewrite app_nil_r. reflexivity.
  - inversion H as [|? ? Hx Hw]; subst. cbn [app split_from]. rewrite Hx.
    rewrite IH by exact Hw. rewrite <- app_assoc. reflexivity.
Qed.

Lemma split_join : forall ws,
  Forall word ws -> split (join (of_string " ") ws) = ws.
Proof.
  unfold split. induction ws as [|w ws IH]; intro H; [reflexivity|].
  inversion H as [|? ? [Hne Hns] Hws]; subst.
  destruct ws as [|w2 ws].
  - cbn [join]. rewrite <- (app_nil_r w) at 1.
    rewrite split_from_word by exact Hns. cbn [app split_from].
    destruct w; [congruence | reflexivity].
  - change (join (of_string " ") (w :: w2 :: ws))
      with (w ++ " "%char :: join (of_string " ") (w2 :: ws)).
    rewrite split_from_word by exact Hns.
    specialize (IH Hws).
    remember (join (of_string " ") (w2 :: ws)) as rest.
    cbn [app split_from]. change (is_space " ") with true. cbn iota.
    rewrite IH. destruct w; [congruence | reflexivity].
Qed.

Lemma split_from_words : forall s cur,
  no_space cur -> Forall word (split_from cur s).
Proof.
  induction s as [|c s IH]; intros cur Hcur; cbn [split_from].
  - destruct cur as [|x cur]; constructor; [|constructor].
    split; [discriminate | exact Hcur].
  - destruct (is_space c) eqn:Ec.
    + destruct cur as [|x cur].
      * apply IH. constructor.
      * constructor; [split; [discriminate | exact Hcur]|]. apply IH. constructor.
    + apply IH. apply Forall_app. split; [exact Hcur|]. constructor; [exact Ec | constructor].
Qed.

Lemma split_from_chars (P : ascii -> Prop) : forall s cur,
  Forall P cur -> Forall P s -> Forall (Forall P) (split_from cur s).
Proof.
  induction s as [|c s IH]; intros cur Hcur Hs; cbn [split_from].
  - destruct cur; constructor; [exact Hcur | constructor].
  - inversion Hs as [|? ? Hc Hs']; subst. destruct (is_space c).
    + destruct cur as [|x cur].
      * apply IH; [constructor | exact Hs'].
      * constructor; [exact Hcur|]. apply IH; [constructor | exact Hs'].
    + apply IH; [|exact Hs']. apply Forall_app. split; [exact Hcur|].
      constructor; [exact Hc | constructor].
Qed.

Section DropWhile.
Variable p : ascii -> bool.

Lemma drop_while_suffix : forall l, exists pre, l = pre ++ drop_while p l.
Proof.
  induction l as [|c l [pre IH]]; simpl.
  - exists []. reflexivity.
  - destruct (p c).
    + exists (c :: pre). simpl. f_equal. exact IH.
    + exists []. reflexivity.
Qed.

Lemma drop_while_Forall (P : ascii -> Prop) l :
  Forall P l -> Forall P (drop_while p l).
Proof.
  intro H. destruct (drop_while_suffix l) as [pre E].
  rewrite E in H. apply Forall_app in H. exact (proj2 H).
Qed.

Lemma drop_while_clean : forall l, starts_clean p (drop_while p l).
Proof.
  induction l as [|c l IH]; simpl; [exact I|].
  destruct (p c) eqn:E; [exact IH | exact E].
Qed.

Lemma drop_while_fixed l : starts_clean p l -> drop_while p l = l.
Proof. destruct l as [|c l]; simpl; [reflexivity|]. intros ->. reflexivity. Qed.

Lemma strip_body_fixed w :
  drop_while p (rev (drop_while p (rev (drop_while p w)))) =
  rev (drop_while p (rev (drop_while p w))).
Proof.
  apply drop_while_fixed.
  destruct (drop_while_suffix (rev (drop_while p w))) as [pre E].
  apply (f_equal (@rev ascii)) in E.
  rewrite rev_involutive, rev_app_distr in E.
  destruct (rev (drop_while p (rev (drop_while p w)))) as [|x r] eqn:Eb; [exact I|].
  pose proof (drop_while_clean w) as Hc. rewrite E in Hc. exact Hc.
Qed.

End DropWhile.

Lemma strip_idempotent chars w : strip chars (strip chars w) = strip chars w.
Proof.
  unfold strip. rewrite strip_body_fixed, rev_involutive. apply strip_body_fixed.
Qed.

Lemma strip_Forall (P : ascii -> Prop) chars w :
  Forall P w -> Forall P (strip chars w).
Proof.
  intro H. unfold strip. apply Forall_rev, drop_while_Forall, Forall_rev, drop_while_Forall.
  exact H.
Qed.

Lemma lower_fixed w : Forall (fun c => lower_char c = c) w -> lower w = w.
Proof.
  induction 1 as [|c w Hc _ IH]; simpl; [reflexivity|]. rewrite Hc, IH. reflexivity.
Qed.

Lemma lower_chars_fixed txt : Forall (fun c => lower_char c = c) (lower txt).
Proof.
  unfold lower. apply Forall_forall. intros c Hc. apply in_map_iff in Hc.
  destruct Hc as [x [<- _]]. apply lower_char_idem.
Qed.

Lemma kept_tokens_kept s : Forall kept (kept_tokens s).
Proof.
  unfold kept_tokens, clean_tokens. apply Forall_forall. intros w Hw.
  apply filter_In in Hw. destruct Hw as [Hw Hf].
  apply filter_In in Hw. destruct Hw as [Hw Hne].
  apply in_map_iff in Hw. destruct Hw as [w0 [<- Hw0]].
  apply andb_true_iff in Hf. destruct Hf as [Hstop Hlen].
  assert (Hword : word w0).
  { pose proof (split_from_words (lower (of_string s)) [] (Forall_nil _)) as H.
    rewrite Forall_forall in H. exact (H _ Hw0). }
  assert (Hlow : Forall (fun c => lower_char c = c) w0).
  { pose proof (split_from_chars (fun c => lower_char c = c) (lower (of_string s)) []
                  (Forall_nil _) (lower_chars_fixed _)) as H.
    rewrite Forall_forall in H. exact (H _ Hw0). }
  repeat split.
  - intro E. rewrite E in Hne. discriminate.
  - apply strip_Forall. exact (proj2 Hword).
  - apply strip_Forall. exact Hlow.
  - apply strip_idempotent.
  - apply negb_true_iff. exact Hstop.
  - apply Nat.ltb_lt in Hlen. lia.
Qed.

Lemma preprocess_text_join s :
  of_string (preprocess_text s) = join (of_string " ") (kept_tokens s).
Proof.
  unfold preprocess_text, of_string, to_string.
  rewrite list_ascii_of_string_of_list_ascii. reflexivity.
Qed.

Lemma kept_words ws : Forall kept ws -> Forall word ws.
Proof. apply Forall_impl. intros w H. exact (proj1 H). Qed.

Lemma map_fixed {A : Type} (f : A -> A) l : Forall (fun x => f x = x) l -> map f l = l.
Proof. induction 1 as [|x l Hx _ IH]; simpl; [reflexivity|]. rewrite Hx, IH. reflexivity. Qed.

Lemma filter_all {A : Type} (f : A -> bool) l :
  Forall (fun x => f x = true) l -> filter f l = l.
Proof. induction 1 as [|x l Hx _ IH]; simpl; [reflexivity|]. rewrite Hx, IH. reflexivity. Qed.

Lemma lower_join ws :
  Forall kept ws -> lower (join (of_string " ") ws) = join (of_string " ") ws.
Proof.
  induction 1 as [|w ws Hw Hws IH]; [reflexivity|].
  destruct Hw as [_ [Hl _]]. apply lower_fixed in Hl.
  destruct ws as [|w2 ws]; [exact Hl|].
  change (join (of_string " ") (w :: w2 :: ws))
    with (w ++ of_string " " ++ join (of_string " ") (w2 :: ws)).
  rewrite !lower_app, Hl, IH. reflexivity.
Qed.

End NormaliserFacts.

(** Splitting the result of [preprocess_text] at whitespace gives back
    the kept tokens, and the result is these tokens joined by single
    spaces; each of them has two characters or more, is no stop word, is
    in lower case and has no punctuation of the strip set at either end. *)
Theorem preprocess_text_tokens (s : string) :
  split (of_string (preprocess_text s)) = kept_tokens s /\
  of_string (preprocess_text s) =
    join (of_string " ") (split (of_string (preprocess_text s))) /\
  Forall (fun w => (2 <= List.length w)%nat /\ is_stop_word w = false /\
                   lower w = w /\ strip STRIP_CHARS w = w)
         (split (of_string (preprocess_text s))).
Proof.
  pose proof (NormaliserFacts.kept_tokens_kept s) as Hk.
  assert (E : split (of_string (preprocess_text s)) = kept_tokens s).
  { rewrite NormaliserFacts.preprocess_text_join.
    apply NormaliserFacts.split_join, NormaliserFacts.kept_words. exact Hk. }
  split; [exact E|]. rewrite E. split.
  - apply NormaliserFacts.preprocess_text_join.
  - revert Hk. apply Forall_impl. intros w [_ [Hl [Hs [Hstop Hlen]]]].
    repeat split; try assumption. apply NormaliserFacts.lower_fixed. exact Hl.
Qed.

(** [preprocess_text] is idempotent: normalising a normalised text
    changes nothing. *)
Theorem preprocess_text_idempotent (s : string) :
  preprocess_text (preprocess_text s) = preprocess_text s.
Proof.
  pose proof (NormaliserFacts.kept_tokens_kept s) as Hk.
  assert (E : kept_tokens (preprocess_text s) = kept_tokens s).
  { unfold kept_tokens at 1. rewrite NormaliserFacts.preprocess_text_join.
    rewrite NormaliserFacts.lower_join by exact Hk.
    rewrite NormaliserFacts.split_join by (apply NormaliserFacts.kept_words; exact Hk).
    assert (H1 : clean_tokens (kept_tokens s) = kept_tokens s).
    { unfold clean_tokens. rewrite NormaliserFacts.map_fixed.
      - apply NormaliserFacts.filter_all. revert Hk. apply Forall_impl.
        intros w [[Hne _] _]. destruct w; [congruence | reflexivity].
      - revert Hk. apply Forall_impl. intros w [_ [_ [Hs _]]]. exact Hs. }
    rewrite H1.
    apply NormaliserFacts.filter_all. revert Hk. apply Forall_impl.
    intros w [_ [_ [_ [Hstop Hlen]]]]. cbv beta. rewrite Hstop. simpl.
    apply Nat.ltb_lt. lia. }
  unfold preprocess_text at 1. fold (kept_tokens (preprocess_text s)).
  rewrite E. reflexivity.
Qed.

(** ** Range and zeros of the TF-IDF similarity *)

Module CosineFacts.
Import Sklearn.

Lemma scale_positive x : 0 < scale x.
Proof.
  unfold scale. destruct (Req_dec_T (norm x) 0) as [_|Hn]; [lra|].
  pose proof (sqrt_pos (dot x x)). unfold norm in *. lra.
Qed.

Lemma normalize_scale x : normalize x = map (fun a => a / scale x) x.
Proof. reflexivity. Qed.

Lemma dot_scaled2 a b : a <> 0 -> b <> 0 -> forall x y,
  dot (map (fun u => u / a) x) (map (fun u => u / b) y) = dot x y / (a * b).
Proof.
  intros Ha Hb. induction x as [|u x IH]; intros [|v y]; simpl;
    try (unfold Rdiv; rewrite Rmult_0_l; reflexivity).
  rewrite IH. field. split; assumption.
Qed.

Lemma dot_normalize x y :
  dot (normalize x) (normalize y) = dot x y / (scale x * scale y).
Proof.
  rewrite !normalize_scale. apply dot_scaled2; apply Rgt_not_eq, scale_positive.
Qed.

Lemma dot_normalize_null x y : dot x y = 0 -> dot (normalize x) (normalize y) = 0.
Proof. intro H. rewrite dot_normalize, H. unfold Rdiv. apply Rmult_0_l. Qed.



Lemma dot_rows_disjoint docs voc d1 d2 :
  (forall t, In t (tokens d1) -> ~ In t (tokens d2)) ->
  dot (tfidf_row docs voc d1) (tfidf_row docs voc d2) = 0.
Proof.
  intro Hdis. unfold tfidf_row. induction voc as [|t voc IH]; simpl; [reflexivity|].
  rewrite IH.
  assert (H : INR (tf t d1) = 0 \/ INR (tf t d2) = 0).
  { unfold tf. destruct (in_dec string_dec t (tokens d1)) as [Hin|Hnot].
    - right. apply Hdis in Hin.
      rewrite (proj1 (count_occ_not_In string_dec (tokens d2) t) Hin). reflexivity.
    - left. rewrite (proj1 (count_occ_not_In string_dec (tokens d1) t) Hnot). reflexivity. }
  destruct H as [-> | ->]; lra.
Qed.

(** The row of index [i] of a fitted matrix: the row of a document, or
    nothing beyond the last one. *)
Lemma fitted_row docs m i :
  tfidf_fit_transform docs = Some m ->
  nth i m [] = [] \/
  exists d, nth_error docs i = Some d /\
            nth i m [] = normalize (tfidf_row docs (vocabulary docs) d).
Proof.
  intro Hm. apply SklearnFacts.fit_transform_rows in Hm. subst m.
  destruct (nth_error docs i) as [d|] eqn:E.
  - right. exists d. split; [reflexivity|].
    apply nth_error_nth. rewrite nth_error_map, E. reflexivity.
  - left. apply nth_overflow. rewrite length_map. apply nth_error_None. exact E.
Qed.

Lemma dot_nil_r x : dot x [] = 0.
Proof. destruct x; reflexivity. Qed.


Lemma cosine_disjoint q ts m i :
  tfidf_fit_transform (q :: ts) = Some m ->
  (forall d, In d ts -> forall t, In t (tokens q) -> ~ In t (tokens d)) ->
  (1 <= i)%nat ->
  tfidf_cosine_similarity m i = 0.
Proof.
  intros Hm Hdis Hi. unfold tfidf_cosine_similarity.
  destruct (fitted_row (q :: ts) m i Hm) as [Ei|[di [Hdi Ei]]]; rewrite Ei.
  - change (normalize []) with (@nil R). apply dot_nil_r.
  - pose proof (SklearnFacts.fit_transform_rows _ _ Hm) as Em. subst m.
    cbn [map nth].
    apply dot_normalize_null, dot_normalize_null, dot_rows_disjoint.
    destruct i as [|j]; [lia|]. cbn [nth_error] in Hdi.
    apply nth_error_In in Hdi. exact (Hdis di Hdi).
Qed.

Lemma vocabulary_nonempty docs d :
  In d docs -> tokens d <> [] -> vocabulary docs <> [].
Proof.
  intros Hd Ht Hv. destruct (tokens d) as [|t l] eqn:E; [congruence|].
  assert (Hin : In t (vocabulary docs)).
  { unfold vocabulary. apply nodup_In, in_concat. exists (tokens d).
    split; [apply in_map; exact Hd | rewrite E; left; reflexivity]. }
  rewrite Hv in Hin. contradiction.
Qed.

End CosineFacts.

(** ** The first template always has a token *)

Module FirstTemplateFacts.

Lemma split_from_app_space : forall a cur X sp,
  is_space sp = true ->
  split_from cur (a ++ sp :: X) = split_from cur a ++ split_from [] X.
Proof.
  induction a as [|x a IH]; intros cur X sp Hsp.
  - cbn [app split_from]. rewrite Hsp. destruct cur; reflexivity.
  - cbn [app split_from]. destruct (is_space x).
    + destruct cur; rewrite IH by exact Hsp; reflexivity.
    + apply IH. exact Hsp.
Qed.

Lemma clean_tokens_app l1 l2 :
  clean_tokens (l1 ++ l2) = clean_tokens l1 ++ clean_tokens l2.
Proof. unfold clean_tokens. rewrite map_app, filter_app. reflexivity. Qed.

Lemma word_runs_word : forall w cur rest,
  forallb is_word_char w = true ->
  Sklearn.word_runs cur (w ++ rest) = Sklearn.word_runs (cur ++ w) rest.
Proof.
  induction w as [|x w IH]; intros cur rest H.
  - rewrite app_nil_r. reflexivity.
  - cbn [forallb] in H. apply andb_true_iff in H. destruct H as [Hx Hw].
    cbn [app Sklearn.word_runs]. rewrite Hx, IH by exact Hw.
    rewrite <- app_assoc. reflexivity.
Qed.

(** A first kept token made of word characters is a token of the
    vectoriser. *)
Lemma first_kept_token_is_token s w rest :
  kept_tokens s = w :: rest ->
  forallb is_word_char w = true ->
  In (to_string w) (Sklearn.tokens (preprocess_text s)).
Proof.
  intros Ek Hw.
  pose proof (NormaliserFacts.kept_tokens_kept s) as Hk. rewrite Ek in Hk.
  assert (Hlen : (2 <= List.length w)%nat).
  { inversion Hk as [|? ? [_ [_ [_ [_ H]]]] _]; exact H. }
  unfold Sklearn.tokens. apply in_map.
  fold (of_string (preprocess_text s)).
  rewrite NormaliserFacts.preprocess_text_join, Ek.
  rewrite NormaliserFacts.lower_join by exact Hk.
  assert (Hemit : Sklearn.emit w = [w]).
  { unfold Sklearn.emit. apply Nat.leb_le in Hlen. rewrite Hlen. reflexivity. }
  destruct rest as [|w2 rest].
  - cbn [join]. rewrite <- (app_nil_r w) at 2.
    rewrite word_runs_word by exact Hw. cbn [app Sklearn.word_runs].
    rewrite Hemit. left. reflexivity.
  - change (join (of_string " ") (w :: w2 :: rest))
      with (w ++ " "%char :: join (of_string " ") (w2 :: rest)).
    rewrite word_runs_word by exact Hw.
    remember (join (of_string " ") (w2 :: rest)) as tail.
    cbn [app Sklearn.word_runs]. change (is_word_char " ") with false. cbn iota.
    rewrite Hemit. left. reflexivity.
Qed.

Lemma first_template_kept company :
  exists rest,
    kept_tokens (format "What is the revenue of {company}?" company) =
    of_string "revenue" :: rest.
Proof.
  assert (E : of_string (format "What is the revenue of {company}?" company) =
              of_string "What is the revenue of" ++ " "%char :: of_string company
              ++ of_string "?").
  { unfold format, to_string, of_string.
    rewrite list_ascii_of_string_of_list_ascii.
    destruct (FormatFacts.format_split (list_ascii_of_string company)
                (list_ascii_of_string "What is the revenue of {company}?")
                (list_ascii_of_string "What is the revenue of ")
                (list_ascii_of_string "?") eq_refl eq_refl) as [_ E].
    rewrite E. reflexivity. }
  unfold kept_tokens. rewrite E, lower_app.
  change (lower (of_string "What is the revenue of"))
    with (of_string "what is the revenue of").
  change (lower (" "%char :: of_string company ++ of_string "?"))
    with (" "%char :: lower (of_string company ++ of_string "?")).
  unfold split. rewrite split_from_app_space by reflexivity.
  rewrite clean_tokens_app, filter_app.
  eexists.
  change (filter (fun w => negb (is_stop_word w) && Nat.ltb 1 (List.length w))
            (clean_tokens (split_from [] (of_string "what is the revenue of"))))
    with [of_string "revenue"].
  reflexivity.
Qed.

Lemma first_template_token company :
  In "revenue"%string
     (Sklearn.tokens (preprocess_text (format "What is the revenue of {company}?" company))).
Proof.
  destruct (first_template_kept company) as [rest E].
  exact (first_kept_token_is_token _ _ _ E eq_refl).
Qed.

Lemma first_entry_fits q company :
  exists m,
    Sklearn.tfidf_fit_transform
      (preprocess_text q :: snd (hd (""%string, []) (format_templates company))) = Some m.
Proof.
  apply SklearnFacts.fit_transform_succeeds.
  apply (CosineFacts.vocabulary_nonempty _
           (preprocess_text (format "What is the revenue of {company}?" company))).
  - right. left. reflexivity.
  - intro H. pose proof (first_template_token company) as Hin.
    rewrite H in Hin. contradiction.
Qed.

End FirstTemplateFacts.

(** ** The similarity path with the TF-IDF engine *)






Lemma no_shared_token_spec q c :
  no_shared_token q c = true ->
  forall entry, In entry (format_templates c) ->
  forall d, In d (snd entry) ->
  forall t, In t (Sklearn.tokens (preprocess_text q)) -> ~ In t (Sklearn.tokens d).
Proof.
  unfold no_shared_token. intros H entry He d Hd t Ht Hin.
  rewrite forallb_forall in H. specialize (H entry He).
  rewrite forallb_forall in H. specialize (H d Hd).
  rewrite forallb_forall in H. specialize (H t Ht).
  apply negb_true_iff in H.
  assert (Hex : existsb (String.eqb t) (Sklearn.tokens d) = true).
  { apply existsb_exists. exists t. split; [exact Hin | apply String.eqb_refl]. }
  congruence.
Qed.

Lemma no_shared_token_scores q c :
  no_shared_token q c = true ->
  forall p, In p (scored_pairs Sklearn.engine (preprocess_text q) (format_templates c)) ->
  snd p = 0.
Proof.
  intros H p Hp. unfold scored_pairs in Hp. apply in_flat_map in Hp.
  destruct Hp as [entry [He Hp]].
  destruct (fit_transform Sklearn.engine (preprocess_text q :: snd entry)) as [m|] eqn:E;
    [|contradiction].
  apply in_map_iff in Hp. destruct Hp as [i [<- Hi]]. cbn [snd].
  apply in_seq in Hi.
  apply (CosineFacts.cosine_disjoint (preprocess_text q) (snd entry) m i E); [|lia].
  intros d Hd. exact (no_shared_token_spec q c H entry He d Hd).
Qed.

(** With scikit-learn available, a query whose normalised text shares no
    token with any template formatted for the company (the empty query, a
    query of stop words or punctuation, a query about something else) is
    classified as revenue_query with confidence 0.3: every similarity is
    zero and the first query type of the bank is kept. *)
Theorem unrelated_query_is_revenue_query (q c : string) :
  no_shared_token q c = true ->
  query_type (analyze_query (Some Sklearn.engine) q c) = Some "revenue_query"%string /\
  confidence (analyze_query (Some Sklearn.engine) q c) = 0.3.
Proof.
  intro H.
  pose proof (no_shared_token_scores q c H) as Hz.
  destruct (FirstTemplateFacts.first_entry_fits q c) as [m Hm].
  assert (R0 : query_type (analyze_query (Some Sklearn.engine) q c)
               = Some "revenue_query"%string /\
               confidence (analyze_query (Some Sklearn.engine) q c)
               = (if Rgt_dec 0 0 then 0 else 0.3)).
  { apply sklearn_first_pair.
    - intro Hv. unfold Sklearn.tfidf_fit_transform in Hm. rewrite Hv in Hm. discriminate.
    - intros m' Hm'.
      apply (CosineFacts.cosine_disjoint _ _ m' 1 Hm'); [|lia].
      intros d Hd. apply (no_shared_token_spec q c H (hd (""%string, []) (format_templates c))).
      + left. reflexivity.
      + exact Hd.
    - lra.
    - intros p Hp. rewrite (Hz p Hp). lra. }
  destruct R0 as [R1 R2]. split; [exact R1|].
  rewrite R2. destruct (Rgt_dec 0 0); [lra | reflexivity].
Qed.

Lemma unrelated_query_is_revenue_query_witness :
  query_type (analyze_query (Some Sklearn.engine) "Hello there, how are you?" "Acme")
    = Some "revenue_query"%string /\
  confidence (analyze_query (Some Sklearn.engine) "Hello there, how are you?" "Acme") = 0.3.
Proof.
  apply (unrelated_query_is_revenue_query "Hello there, how are you?" "Acme").
  vm_compute. reflexivity.
Defined.



(** ** Response generator *)

Module ResponseFacts.
Import Response.

Lemma category_is_no_type k name :
  In k (keys FINANCIAL_TERMS) -> In name INTENTS -> is_type (Some k) name = false.
Proof.
  intros Hk Hn. unfold is_type. apply String.eqb_neq. intros ->.
  exact (categories_are_not_intents name Hk Hn).
Qed.

Lemma is_type_same name : is_type (Some name) name = true.
Proof. apply String.eqb_refl. Qed.

Section Answers.
Variables fmt_money fmt_1f fmt_2f : R -> string.

Lemma category_answer engine q data company d k :
  get company data = Some d ->
  query_type (analyze_query engine q company) = Some k ->
  In k (keys FINANCIAL_TERMS) ->
  generate_response fmt_money fmt_1f fmt_2f engine q data company =
  if is_forecast (analyze_query engine q company)
  then forecast_answer fmt_money company d
  else if is_comparison (analyze_query engine q company)
       then comparison_answer fmt_money fmt_1f company data
       else not_enough_information company.
Proof.
  intros Hget Hqt Hk. unfold generate_response. rewrite Hget, Hqt.
  rewrite !(category_is_no_type k) by (exact Hk || (vm_compute; tauto)).
  reflexivity.
Qed.

End Answers.

End ResponseFacts.

(** Without scikit-learn, for a company of the dataset: a question in
    which a financial term is found, but no forecast or comparison term,
    gets the answer that there is not enough information, whatever it asks
    about, because the query type is then a category name that no branch
    of [generate_response] handles; with a comparison term and a dataset
    of one company it is told that no other company is available; and a
    question with no financial term and no keyword gets the performance
    overview. *)
Theorem answers_without_similarity_engine
    (fmt_money fmt_1f fmt_2f : R -> string) (q company : string)
    (data : dict Response.CompanyData) (d : Response.CompanyData) :
  get company data = Some d ->
  (extract_financial_terms q <> [] ->
   mem "forecast" (extract_financial_terms q) = false ->
   mem "comparison" (extract_financial_terms q) = false ->
   Response.generate_response fmt_money fmt_1f fmt_2f None q data company =
   Response.not_enough_information company) /\
  (mem "forecast" (extract_financial_terms q) = false ->
   mem "comparison" (extract_financial_terms q) = true ->
   (List.length data <= 1)%nat ->
   Response.generate_response fmt_money fmt_1f fmt_2f None q data company =
   Response.no_other_companies company) /\
  (extract_financial_terms q = [] ->
   keyword_match (lower (of_string q)) = None ->
   Response.generate_response fmt_money fmt_1f fmt_2f None q data company =
   Response.performance_answer fmt_money fmt_1f fmt_2f company d).
Proof.
  intro Hget.
  assert (Hcat : extract_financial_terms q <> [] ->
                 exists k, query_type (analyze_query None q company) = Some k /\
                           In k (keys FINANCIAL_TERMS)).
  { intro Hne.
    destruct (first_key (extract_financial_terms q)) as [k|] eqn:Ek.
    - exists k. split; [|exact (first_key_is_category q k Ek)].
      rewrite analyze_query_type. unfold identify_query_type. rewrite Ek. reflexivity.
    - exfalso. apply Hne. destruct (extract_financial_terms q) as [|[k v] l];
        [reflexivity | discriminate]. }
  split; [|split].
  - intros Hne Hf Hc. destruct (Hcat Hne) as [k [Hqt Hk]].
    rewrite (ResponseFacts.category_answer fmt_money fmt_1f fmt_2f None q data company d k
               Hget Hqt Hk).
    change (is_forecast (analyze_query None q company))
      with (mem "forecast" (extract_financial_terms q)).
    change (is_comparison (analyze_query None q company))
      with (mem "comparison" (extract_financial_terms q)).
    rewrite Hf, Hc. reflexivity.
  - intros Hf Hc Hlen.
    assert (Hne : extract_financial_terms q <> []).
    { intro E. rewrite E in Hc. discriminate. }
    destruct (Hcat Hne) as [k [Hqt Hk]].
    rewrite (ResponseFacts.category_answer fmt_money fmt_1f fmt_2f None q data company d k
               Hget Hqt Hk).
    change (is_forecast (analyze_query None q company))
      with (mem "forecast" (extract_financial_terms q)).
    change (is_comparison (analyze_query None q company))
      with (mem "comparison" (extract_financial_terms q)).
    rewrite Hf, Hc. unfold Response.comparison_answer, keys. rewrite length_map.
    apply Nat.leb_le in Hlen. rewrite Hlen. reflexivity.
  - intros He Hk. unfold Response.generate_response. rewrite Hget.
    assert (Hqt : query_type (analyze_query None q company)
                  = Some "performance_query"%string).
    { rewrite analyze_query_type. unfold identify_query_type. rewrite He, Hk. reflexivity. }
    rewrite Hqt. reflexivity.
Qed.

Lemma answers_without_similarity_engine_witness :
  Response.generate_response (fun _ => "1"%string) (fun _ => "2"%string)
    (fun _ => "3"%string) None "What is the revenue of Acme?" ACME_ONLY "Acme" =
  Response.not_enough_information "Acme".
Proof.
  apply (proj1 (answers_without_similarity_engine
                  (fun _ => "1"%string) (fun _ => "2"%string) (fun _ => "3"%string)
                  "What is the revenue of Acme?" "Acme" ACME_ONLY ACME_2024 eq_refl)).
  - vm_compute. discriminate.
  - vm_compute. reflexivity.
  - vm_compute. reflexivity.
Defined.

(** With scikit-learn available, for a company of the dataset, a question
    that shares no token with the templates is answered with the
    company's revenue: the empty question gets the sentence on the total
    revenue of the latest year. *)
Theorem unrelated_question_gets_revenue_answer
    (fmt_money fmt_1f fmt_2f : R -> string) (q company : string)
    (data : dict Response.CompanyData) (d : Response.CompanyData) :
  get company data = Some d ->
  no_shared_token q company = true ->
  Response.generate_response fmt_money fmt_1f fmt_2f (Some Sklearn.engine) q data company =
    Response.revenue_answer fmt_money fmt_1f company d
      (mem "trend" (extract_financial_terms q)) /\
  (q = ""%string ->
   Response.generate_response fmt_money fmt_1f fmt_2f (Some Sklearn.engine) q data company =
   (company ++ "'s total revenue for " ++ Response.str_int (Response.latest_year d)
    ++ " was $" ++ fmt_money (Response.total_revenue d) ++ " million.")%string).
Proof.
  intros Hget Hns.
  assert (Hqt : query_type (analyze_query (Some Sklearn.engine) q company)
                = Some "revenue_query"%string).
  { pose proof (no_shared_token_scores q company Hns) as Hz.
    destruct (FirstTemplateFacts.first_entry_fits q company) as [m Hm].
    apply (sklearn_first_pair q company 0).
    - intro Hv. unfold Sklearn.tfidf_fit_transform in Hm. rewrite Hv in Hm. discriminate.
    - intros m' Hm'.
      apply (CosineFacts.cosine_disjoint _ _ m' 1 Hm'); [|lia].
      intros x Hx.
      apply (no_shared_token_spec q company Hns (hd (""%string, []) (format_templates company))).
      + left. reflexivity.
      + exact Hx.
    - lra.
    - intros p Hp. rewrite (Hz p Hp). lra. }
  assert (E : Response.generate_response fmt_money fmt_1f fmt_2f (Some Sklearn.engine)
                q data company =
              Response.revenue_answer fmt_money fmt_1f company d
                (mem "trend" (extract_financial_terms q))).
  { unfold Response.generate_response. rewrite Hget, Hqt. reflexivity. }
  split; [exact E|]. intros ->. rewrite E. reflexivity.
Qed.

Lemma unrelated_question_gets_revenue_answer_witness :
  Response.generate_response (fun _ => "1"%string) (fun _ => "2"%string)
    (fun _ => "3"%string) (Some Sklearn.engine) "" ACME_ONLY "Acme" =
  "Acme's total revenue for 2024 was $1 million."%string.
Proof.
  assert (H : no_shared_token "" "Acme" = true) by (vm_compute; reflexivity).
  exact (proj2 (unrelated_question_gets_revenue_answer
                  (fun _ => "1"%string) (fun _ => "2"%string) (fun _ => "3"%string)
                  "" "Acme" ACME_ONLY ACME_2024 eq_refl H) eq_refl).
Defined.

(** ** Letter case *)

Module CaseFacts.

Lemma lower_char_two c : Ascii.eqb (lower_char c) "2" = Ascii.eqb c "2".
Proof. destruct c as [[] [] [] [] [] [] [] []]; vm_compute; reflexivity. Qed.

Lemma lower_char_zero c : Ascii.eqb (lower_char c) "0" = Ascii.eqb c "0".
Proof. destruct c as [[] [] [] [] [] [] [] []]; vm_compute; reflexivity. Qed.

Lemma lower_char_digit c : is_digit (lower_char c) = is_digit c.
Proof. destruct c as [[] [] [] [] [] [] [] []]; vm_compute; reflexivity. Qed.

Lemma digit_lower_fixed c : is_digit c = true -> lower_char c = c.
Proof. destruct c as [[] [] [] [] [] [] [] []]; vm_compute; congruence. Qed.

Lemma match_year_lower prev prev' s :
  Regex.word_before prev = Regex.word_before prev' ->
  Regex.match_year_here prev (lower s) = Regex.match_year_here prev' s.
Proof.
  intro Hp. destruct s as [|c1 [|c2 [|c3 [|c4 rest]]]]; try reflexivity.
  unfold Regex.match_year_here, Regex.boundary.
  change (lower (c1 :: c2 :: c3 :: c4 :: rest))
    with (lower_char c1 :: lower_char c2 :: lower_char c3 :: lower_char c4 :: lower rest).
  cbn [Regex.word_at Regex.word_before].
  rewrite Hp, !lower_char_word, lower_char_two, lower_char_zero, !lower_char_digit.
  rewrite word_at_lower.
  destruct (Ascii.eqb c1 "2") eqn:E1; [|rewrite !andb_false_r; reflexivity].
  destruct (Ascii.eqb c2 "0") eqn:E2; [|rewrite !andb_false_r; reflexivity].
  destruct (is_digit c3) eqn:E3; [|rewrite !andb_false_r; reflexivity].
  destruct (is_digit c4) eqn:E4; [|rewrite !andb_false_r; reflexivity].
  apply Ascii.eqb_eq in E1, E2. subst c1 c2.
  rewrite (digit_lower_fixed c3 E3), (digit_lower_fixed c4 E4). reflexivity.
Qed.

Lemma findall_years_from_lower : forall s k prev prev',
  Regex.word_before prev = Regex.word_before prev' ->
  Regex.findall_years_from k prev (lower s) = Regex.findall_years_from k prev' s.
Proof.
  induction s as [|c s IH]; intros k prev prev' Hp; [reflexivity|].
  change (lower (c :: s)) with (lower_char c :: lower s).
  assert (Hc : Regex.word_before (Some (lower_char c)) = Regex.word_before (Some c))
    by apply lower_char_word.
  destruct k as [|k]; cbn [Regex.findall_years_from].
  - change (lower_char c :: lower s) with (lower (c :: s)).
    rewrite (match_year_lower prev prev' (c :: s) Hp).
    destruct (Regex.match_year_here prev' (c :: s)); rewrite (IH _ _ _ Hc); reflexivity.
  - apply IH. exact Hc.
Qed.

Lemma findall_years_lower txt :
  Regex.findall_years (lower txt) = Regex.findall_years txt.
Proof. apply findall_years_from_lower. reflexivity. Qed.

Lemma of_to_string t : of_string (to_string t) = t.
Proof. apply list_ascii_of_string_of_list_ascii. Qed.

Lemma preprocess_text_lower s :
  preprocess_text (to_string (lower (of_string s))) = preprocess_text s.
Proof. unfold preprocess_text. rewrite of_to_string, lower_idem. reflexivity. Qed.

Lemma extract_lower s :
  extract_financial_terms (to_string (lower (of_string s))) = extract_financial_terms s.
Proof. unfold extract_financial_terms. rewrite of_to_string, lower_idem. reflexivity. Qed.

Lemma preprocess_format_lower qt templates t c :
  In (qt, templates) QUERY_TEMPLATES -> In t templates ->
  preprocess_text (format t (to_string (lower (of_string c)))) =
  preprocess_text (format t c).
Proof.
  intros Hq Ht.
  pose proof FormatFacts.templates_split as H.
  rewrite forallb_forall in H. specialize (H _ Hq). cbn [snd] in H.
  rewrite forallb_forall in H. specialize (H _ Ht).
  destruct (split_placeholder (of_string t)) as [[a b]|] eqn:Es; [|discriminate].
  apply negb_true_iff in H.
  unfold preprocess_text, format. rewrite !of_to_string.
  rewrite (proj2 (FormatFacts.format_split (lower (of_string c)) _ _ _ Es H)).
  rewrite (proj2 (FormatFacts.format_split (of_string c) _ _ _ Es H)).
  rewrite !lower_app, lower_idem. reflexivity.
Qed.

Lemma format_templates_lower c :
  format_templates (to_string (lower (of_string c))) = format_templates c.
Proof.
  unfold format_templates. apply map_ext_in. intros [qt templates] Hin. cbn [fst snd].
  f_equal. apply map_ext_in. intros t Ht.
  exact (preprocess_format_lower qt templates t c Hin Ht).
Qed.

End CaseFacts.

(** The analysis does not depend on the letter case of the query nor on
    that of the company name: lower-casing either gives the same result,
    for every engine. *)
Theorem analysis_ignores_letter_case (engine : option SimilarityEngine) (q c : string) :
  analyze_query engine (to_string (lower (of_string q))) c = analyze_query engine q c /\
  analyze_query engine q (to_string (lower (of_string c))) = analyze_query engine q c.
Proof.
  split.
  - unfold analyze_query, identify_query_type.
    rewrite CaseFacts.preprocess_text_lower, CaseFacts.extract_lower,
      CaseFacts.of_to_string, lower_idem, CaseFacts.findall_years_lower.
    reflexivity.
  - unfold analyze_query, identify_query_type.
    rewrite CaseFacts.format_templates_lower. reflexivity.
Qed.
